(** * Equine bodywork session tracker: rasteriser, record store and delivery

    A shallow embedding of [Equine_Bodywork.py] and of its development
    variant [test_sendgrid.py].  The Python code is embedded as functions
    of a small state-and-exception monad; the third-party libraries it calls
    (Pillow, pandas' CSV reader and writer, SendGrid, a few Python builtins)
    are interfaces, given as type classes, so that every statement holds for
    any behaviour of those libraries.  A reference instance at the end of the
    definitions makes every definition runnable. *)

From Stdlib Require Import ZArith QArith String Ascii List Lia.
From stdpp Require Import gmap strings list pretty.

Set Warnings "-register-all".

Open Scope string_scope.
Open Scope list_scope.
Open Scope Z_scope.
Open Scope nat_scope.

(** ** Values received from the canvas widget

    The widget hands over the JSON document produced by Fabric.js, decoded
    by Python's [json] module: [None], booleans, numbers, strings, lists and
    dicts.  Finite floats are rationals; a dict is an association list in
    insertion order whose lookup takes the first binding of a key. *)

Inductive json : Type :=
  | JNull
  | JBool (b : bool)
  | JNum (q : Q)
  | JStr (s : string)
  | JArr (l : list json)
  | JObj (kvs : list (string * json)).

(** ** Python exceptions *)

Inductive exn : Type :=
  | TypeError
  | ValueError
  | IndexError
  | KeyError
  | AttributeError
  | FileNotFoundError
  | EmptyDataError
  | ParserError
  | LibraryError (msg : string).

Inductive result (A : Type) : Type :=
  | Ok (a : A)
  | Raise (e : exn).
Arguments Ok {A} a.
Arguments Raise {A} e.

Definition rbind {A B} (r : result A) (f : A -> result B) : result B :=
  match r with
  | Ok a => f a
  | Raise e => Raise e
  end.

Declare Scope res_scope.
Delimit Scope res_scope with res.
Notation "'let?' x ':=' r 'in' k" := (rbind r (fun x => k))
  (at level 10, x name, r at level 100, k at level 200) : res_scope.

(** ** Python operations on decoded JSON *)

Fixpoint assoc (key : string) (kvs : list (string * json)) : option json :=
  match kvs with
  | [] => None
  | (k, v) :: rest => if String.eqb k key then Some v else assoc key rest
  end.

Definition is_str (s : string) (j : json) : bool :=
  match j with
  | JStr t => String.eqb t s
  | _ => false
  end.

(** [bool(x)]: the truth value Python gives a value. *)
Definition py_truthy (j : json) : bool :=
  match j with
  | JNull => false
  | JBool b => b
  | JNum q => negb (Qnum q =? 0)%Z
  | JStr s => negb (String.eqb s "")
  | JArr l => match l with [] => false | _ => true end
  | JObj kvs => match kvs with [] => false | _ => true end
  end.

Fixpoint str_contains (needle s : string) : bool :=
  String.prefix needle s ||
  match s with
  | EmptyString => false
  | String _ s' => str_contains needle s'
  end.

(** [key in x] for a string [key]. *)
Definition py_contains (key : string) (j : json) : result bool :=
  match j with
  | JObj kvs => Ok (match assoc key kvs with Some _ => true | None => false end)
  | JArr l => Ok (existsb (is_str key) l)
  | JStr s => Ok (str_contains key s)
  | _ => Raise TypeError
  end.

(** [x[key]] for a string [key]. *)
Definition py_getitem (j : json) (key : string) : result json :=
  match j with
  | JObj kvs => match assoc key kvs with Some v => Ok v | None => Raise KeyError end
  | _ => Raise TypeError
  end.

(** [x.get(key, default)]; only dicts have a [get] method. *)
Definition py_get (j : json) (key : string) (default : json) : result json :=
  match j with
  | JObj kvs => Ok (match assoc key kvs with Some v => v | None => default end)
  | _ => Raise AttributeError
  end.

(** [x[i]] for a non-negative integer [i]. *)
Definition py_index (j : json) (i : nat) : result json :=
  match j with
  | JArr l => match nth_error l i with Some v => Ok v | None => Raise IndexError end
  | JStr s => match String.get i s with
              | Some c => Ok (JStr (String c EmptyString))
              | None => Raise IndexError
              end
  | JObj _ => Raise KeyError
  | _ => Raise TypeError
  end.

(** [x[1:]]. *)
Definition py_tail (j : json) : result json :=
  match j with
  | JArr l => Ok (JArr (tl l))
  | JStr s => Ok (JStr (match s with EmptyString => EmptyString | String _ t => t end))
  | _ => Raise TypeError
  end.

Fixpoint chars (s : string) : list json :=
  match s with
  | EmptyString => []
  | String c t => JStr (String c EmptyString) :: chars t
  end.

(** The items a [for] loop over [x] visits. *)
Definition py_iter (j : json) : result (list json) :=
  match j with
  | JArr l => Ok l
  | JStr s => Ok (chars s)
  | JObj kvs => Ok (map (fun kv => JStr (fst kv)) kvs)
  | _ => Raise TypeError
  end.

(** ** Library interfaces *)

(** Pillow: [Image.convert("RGBA")] returns a converted copy,
    [ImageDraw.line] draws on an image or raises, [ImageColor.getrgb]
    resolves a colour string or raises. *)
Class PIL : Type := {
  image : Type;
  convert_rgba : image -> image;
  draw_line : list (json * json) -> list Z -> Z -> image -> result image;
  getrgb : string -> result (list Z)
}.

(** [int(x)] on a string is Python's own parser. *)
Class Builtins : Type := {
  int_of_str : string -> result Z;
  date : Type;
  str_of_date : date -> string;
  str_of_float : Q -> string
}.

(** [int(x)]. *)
Definition py_int {py : Builtins} (j : json) : result Z :=
  match j with
  | JBool b => Ok (if b then 1 else 0)%Z
  | JNum q => Ok (Z.quot (Qnum q) (Zpos (Qden q)))
  | JStr s => int_of_str s
  | _ => Raise TypeError
  end.

(** [ImageColor.getrgb(x)]: anything but a string is rejected before the
    colour tables are consulted. *)
Definition imagecolor_getrgb {pil : PIL} (j : json) : result (list Z) :=
  match j with
  | JStr s => getrgb s
  | JArr _ | JObj _ => Raise AttributeError
  | _ => Raise TypeError
  end.

(** ** Path segments of a stroke

    One iteration of the segment loop of [export_canvas_to_file]: the vertex
    the segment appends to [path_points], if any. *)

Definition segment_point (segment : json) : result (option (json * json)) :=
  (let? cmd := py_index segment 0 in
   let? coords := py_tail segment in
   if is_str "M" cmd || is_str "L" cmd then
     let? x := py_index coords 0 in
     let? y := py_index coords 1 in
     Ok (Some (x, y))
   else if is_str "Q" cmd then
     let? x := py_index coords 2 in
     let? y := py_index coords 3 in
     Ok (Some (x, y))
   else Ok None)%res.

(** The same iteration as [test_sendgrid.py] writes it, with one branch per
    command letter. *)
Definition segment_point_dev (segment : json) : result (option (json * json)) :=
  (let? cmd := py_index segment 0 in
   let? coords := py_tail segment in
   if is_str "M" cmd then
     let? x := py_index coords 0 in
     let? y := py_index coords 1 in
     Ok (Some (x, y))
   else if is_str "L" cmd then
     let? x := py_index coords 0 in
     let? y := py_index coords 1 in
     Ok (Some (x, y))
   else if is_str "Q" cmd then
     let? x := py_index coords 2 in
     let? y := py_index coords 3 in
     Ok (Some (x, y))
   else Ok None)%res.

(** The segment loop, started with the points appended so far. *)
Fixpoint collect_points (segments : list json) (path_points : list (json * json))
  : result (list (json * json)) :=
  match segments with
  | [] => Ok path_points
  | segment :: rest =>
      match segment_point segment with
      | Raise e => Raise e
      | Ok None => collect_points rest path_points
      | Ok (Some p) => collect_points rest (path_points ++ [p])
      end
  end.

(** What the body of the [try] computes before it reaches [draw.line]:
    the colour with its alpha component and the stroke width, then the
    vertices. *)
Definition stroke_style {pil : PIL} {py : Builtins} (obj : json) : result (list Z * Z) :=
  (let? stroke := py_get obj "stroke" (JStr "#ff0000") in
   let? declared := py_get obj "strokeWidth" (JNum 3) in
   let? stroke_width := py_int declared in
   let? rgb := imagecolor_getrgb stroke in
   let color := rgb ++ [255%Z] in
   Ok (color, stroke_width))%res.

Definition stroke_points (obj : json) : result (list (json * json)) :=
  (let? path := py_get obj "path" (JArr []) in
   let? segments := py_iter path in
   collect_points segments [])%res.

Record stroke_plan : Type := {
  plan_fill : list Z;
  plan_width : Z;
  plan_points : list (json * json)
}.

Definition plan_stroke {pil : PIL} {py : Builtins} (obj : json) : result stroke_plan :=
  (let? style := stroke_style obj in
   let? path_points := stroke_points obj in
   Ok {| plan_fill := fst style; plan_width := snd style; plan_points := path_points |})%res.

(** ** The world the program runs in

    Pillow images are objects: two names may denote the same image, so the
    images live in a store addressed by [loc].  Files are addressed by their
    path.  What the program shows or asks for is an [event]. *)

Abbreviation loc := positive.

(** A CSV file is its records, text cell by text cell, header first. *)
Inductive file {pil : PIL} : Type :=
  | PngFile (i : image)
  | CsvFile (records : list (list string)).

Record Attachment : Type := {
  file_content : string;
  file_name : string;
  file_type : string;
  disposition : string
}.

Record Mail : Type := {
  from_email : option string * option string;
  to_emails : string;
  subject : string;
  html_content : string;
  reply_to : option string;
  attachment : list Attachment
}.

Inductive event : Type :=
  | EvDrawLine (target : loc) (points : list (json * json)) (fill : list Z) (width : Z)
  | EvPrint (msg : string) (e : exn)
  | EvWriteFile (path : string)
  | EvSend (message : Mail)
  | StSuccess (msg : string)
  | StWarning (msg : string)
  | StError (msg : string)
  | StException (e : exn).

Record state {pil : PIL} : Type := {
  images : gmap loc image;
  files : gmap string file
}.

(** ** A state and exception monad with an event log

    A computation takes the world, and leaves a result or an exception, the
    world as it is then, and the events it produced, oldest first. *)

Section Monad.
Context {pil : PIL}.

Definition M (A : Type) : Type := state -> result A * state * list event.

Definition ret {A} (a : A) : M A := fun s => (Ok a, s, []).

Definition raise {A} (e : exn) : M A := fun s => (Raise e, s, []).

Definition lift {A} (r : result A) : M A := fun s => (r, s, []).

Definition emit (ev : event) : M unit := fun s => (Ok tt, s, [ev]).

Definition bind {A B} (m : M A) (f : A -> M B) : M B := fun s =>
  match m s with
  | (Ok a, s1, ev1) => let '(r, s2, ev2) := f a s1 in (r, s2, ev1 ++ ev2)
  | (Raise e, s1, ev1) => (Raise e, s1, ev1)
  end.

(** [try: m except Exception as e: h e] *)
Definition try_except {A} (m : M A) (h : exn -> M A) : M A := fun s =>
  match m s with
  | (Ok a, s1, ev1) => (Ok a, s1, ev1)
  | (Raise e, s1, ev1) => let '(r, s2, ev2) := h e s1 in (r, s2, ev1 ++ ev2)
  end.

(** [for x in l: body x] *)
Fixpoint for_each {A} (l : list A) (body : A -> M unit) : M unit :=
  match l with
  | [] => ret tt
  | x :: rest => bind (body x) (fun _ => for_each rest body)
  end.
End Monad.

Notation "'let!' x ':=' m 'in' k" := (bind m (fun x => k))
  (at level 10, x name, m at level 100, k at level 200).
Notation "m ;; k" := (bind m (fun _ => k))
  (at level 100, k at level 200, right associativity).

(** ** More library interfaces *)

(** The operating system and SendGrid: [base64.b64encode] of a file's
    bytes, [os.getenv], and the outcome of [SendGridAPIClient.send]. *)
Class Services {pil : PIL} : Type := {
  b64encode : file -> string;
  getenv : string -> option string;
  sg_send : Mail -> result unit;
  format_2f : Q -> string
}.

(** ** Pillow and file operations on the world *)

Section Operations.
Context {pil : PIL}.

(** [src.convert("RGBA")]: a new image object. *)
Definition image_convert_rgba (src : loc) : M loc := fun s =>
  match images s !! src with
  | None => (Raise (LibraryError "no such image"), s, [])
  | Some i =>
      let l := fresh (dom (images s)) in
      (Ok l, {| images := <[l := convert_rgba i]> (images s); files := files s |}, [])
  end.

(** [ImageDraw.Draw(target).line(points, fill=fill, width=width)]. *)
Definition imagedraw_line (target : loc) (points : list (json * json))
    (fill : list Z) (width : Z) : M unit := fun s =>
  match images s !! target with
  | None => (Raise (LibraryError "no such image"), s, [EvDrawLine target points fill width])
  | Some i =>
      match draw_line points fill width i with
      | Ok i' => (Ok tt, {| images := <[target := i']> (images s); files := files s |},
                  [EvDrawLine target points fill width])
      | Raise e => (Raise e, s, [EvDrawLine target points fill width])
      end
  end.

(** [img.save(path)]. *)
Definition image_save (img : loc) (path : string) : M unit := fun s =>
  match images s !! img with
  | None => (Raise (LibraryError "no such image"), s, [])
  | Some i =>
      (Ok tt, {| images := images s; files := <[path := PngFile i]> (files s) |},
       [EvWriteFile path])
  end.

(** [os.path.exists(path)]. *)
Definition os_path_exists (path : string) : M bool := fun s =>
  (Ok (match files s !! path with Some _ => true | None => false end), s, []).

(** [open(path, "rb").read()]. *)
Definition read_file (path : string) : M file := fun s =>
  match files s !! path with
  | Some f => (Ok f, s, [])
  | None => (Raise FileNotFoundError, s, [])
  end.
End Operations.

(** ** [export_canvas_to_file] *)

Record CanvasResult : Type := { json_data : json }.

Definition report : string := "⚠️ Error drawing path:".

Section Rasteriser.
Context {pil : PIL} {py : Builtins}.

(** The body of the [try] block for one path object. *)
Definition draw_path (img : loc) (obj : json) : M unit :=
  let! plan := lift (plan_stroke obj) in
  if 1 <? length (plan_points plan)
  then imagedraw_line img (plan_points plan) (plan_fill plan) (plan_width plan)
  else ret tt.

(** One iteration of the loop over the objects. *)
Definition draw_object (img : loc) (obj : json) : M unit :=
  let! ty := lift (py_get obj "type" JNull) in
  if is_str "path" ty
  then try_except (draw_path img obj) (fun e => emit (EvPrint report e))
  else ret tt.

(** [not canvas_data.json_data or "objects" not in canvas_data.json_data] *)
Definition payload_absent (data : json) : result bool :=
  if negb (py_truthy data) then Ok true
  else (let? present := py_contains "objects" data in Ok (negb present))%res.

Definition export_canvas_to_file (canvas_data : CanvasResult)
    (background_image : loc) (save_path : string) : M unit :=
  let! absent := lift (payload_absent (json_data canvas_data)) in
  if absent then ret tt
  else
    let! img := image_convert_rgba background_image in
    let! objects := lift (py_getitem (json_data canvas_data) "objects") in
    let! items := lift (py_iter objects) in
    for_each items (draw_object img) ;;
    image_save img save_path.
End Rasteriser.

(** ** The session record store

    A data frame is its column names and its rows.  Cells hold the text
    pandas writes for a value, which is also what it reads back: the store
    is observed at the level of CSV records. *)

Record DataFrame : Type := {
  columns : list string;
  rows : list (list string)
}.

Definition csv_path : string := "data/session_data.csv".

Definition str_of_bool (b : bool) : string := if b then "True" else "False".

Fixpoint in_list (c : string) (l : list string) : bool :=
  match l with
  | [] => false
  | d :: rest => String.eqb d c || in_list c rest
  end.

Fixpoint cell_of (c : string) (cols : list string) (row : list string) : string :=
  match cols, row with
  | d :: cols', v :: row' => if String.eqb d c then v else cell_of c cols' row'
  | _, _ => ""
  end.

(** A row laid out under other columns; a column the row lacks is empty. *)
Definition realign (from to : list string) (row : list string) : list string :=
  map (fun c => cell_of c from row) to.

(** [pd.concat([a, b], ignore_index=True)]: the union of the columns in
    order of appearance, the rows of [a] then the rows of [b]. *)
Definition pd_concat (a b : DataFrame) : DataFrame :=
  let cols := columns a ++ List.filter (fun c => negb (in_list c (columns a))) (columns b) in
  {| columns := cols;
     rows := map (realign (columns a) cols) (rows a) ++
             map (realign (columns b) cols) (rows b) |}.

(** [pd.DataFrame([d])] for a dict [d]: one row, columns in key order. *)
Definition pd_DataFrame (d : list (string * string)) : DataFrame :=
  {| columns := map fst d; rows := [map snd d] |}.

Section Store.
Context {pil : PIL}.

(** [pd.read_csv(path)] *)
Definition pd_read_csv (path : string) : M DataFrame := fun s =>
  match files s !! path with
  | None => (Raise FileNotFoundError, s, [])
  | Some (PngFile _) => (Raise ParserError, s, [])
  | Some (CsvFile []) => (Raise EmptyDataError, s, [])
  | Some (CsvFile (header :: body)) => (Ok {| columns := header; rows := body |}, s, [])
  end.

(** [df.to_csv(path, index=False)] *)
Definition to_csv (df : DataFrame) (path : string) : M unit := fun s =>
  (Ok tt,
   {| images := images s; files := <[path := CsvFile (columns df :: rows df)]> (files s) |},
   [EvWriteFile path]).
End Store.

(** ** The session, its summary and its delivery *)

Record Session {py : Builtins} : Type := {
  session_date : date;
  horse_name : string;
  amount : Q;
  paid : bool;
  client_email : string;
  notes : string
}.

Definition dq : string := String "034"%char EmptyString.
Definition nl : string := String "010"%char EmptyString.

(** [s.replace('\n', '<br>')] *)
Fixpoint replace_newlines (s : string) : string :=
  match s with
  | EmptyString => EmptyString
  | String c t =>
      if Ascii.eqb c "010"%char then "<br>" +:+ replace_newlines t
      else String c (replace_newlines t)
  end.

Definition logo_url : string :=
  "https://raw.githubusercontent.com/heatherLS/equine-bodywork/main/images/logo.png".

Section Delivery.
Context {pil : PIL} {py : Builtins} {svc : Services}.

Definition session_data (x : Session) : list (string * string) :=
  [ ("Date", str_of_date (session_date x));
    ("Horse", horse_name x);
    ("Amount", str_of_float (amount x));
    ("Paid", str_of_bool (paid x));
    ("Email", client_email x);
    ("Notes", notes x) ].

Definition paid_status (p : bool) : string := if p then "✅ Paid" else "❌ Not Paid".

Definition summary_lines (x : Session) : string :=
  "    <h2>🐴 Session Summary for " +:+ horse_name x +:+ "</h2>" +:+ nl +:+
  "    <p><strong>Date:</strong> " +:+ str_of_date (session_date x) +:+ "</p>" +:+ nl +:+
  "    <p><strong>Amount:</strong> $" +:+ format_2f (amount x) +:+ " — " +:+
    paid_status (paid x) +:+ "</p>" +:+ nl +:+
  "    <p><strong>Notes:</strong></p>" +:+ nl +:+
  "    <p>" +:+ replace_newlines (notes x) +:+ "</p>" +:+ nl.

(** The body [Equine_Bodywork.py] composes. *)
Definition html_content_of (x : Session) : string :=
  nl +:+
  "    <img src=" +:+ dq +:+ logo_url +:+ dq +:+ " alt=" +:+ dq +:+ "Logo" +:+ dq +:+
    " style=" +:+ dq +:+ "height:100px;" +:+ dq +:+ "><br><br>" +:+ nl +:+
  summary_lines x +:+
  "    <h3>📎 Marked Areas of Concern</h3>" +:+ nl +:+
  "    <p>The marked diagrams are attached as images of the left and right sides of the horse.</p>"
    +:+ nl +:+ "    ".

Definition inline_img (side encoded : string) : string :=
  "    <p><strong>" +:+ side +:+ " Side:</strong><br>" +:+ nl +:+
  "        <img src=" +:+ dq +:+ "data:image/png;base64," +:+ encoded +:+ dq +:+
    " alt=" +:+ dq +:+ side +:+ " Side" +:+ dq +:+
    " style=" +:+ dq +:+ "border:1px solid #ccc;" +:+ dq +:+
    " width=" +:+ dq +:+ "300" +:+ dq +:+ ">" +:+ nl +:+
  "    </p>" +:+ nl.

(** The body [test_sendgrid.py] composes, with the diagrams inlined. *)
Definition html_content_dev (x : Session) (left_inline right_inline : string) : string :=
  nl +:+ "    <html>" +:+ nl +:+ "    <body>" +:+ nl +:+
  summary_lines x +:+ nl +:+
  "    <h3>🖼️ Inline Marked Diagrams</h3>" +:+ nl +:+
  inline_img "Left" left_inline +:+ inline_img "Right" right_inline +:+ nl +:+
  "    <h3>📎 Marked Areas of Concern</h3>" +:+ nl +:+
  "    <p>The marked diagrams are also attached as images of the left and right sides of the horse.</p>"
    +:+ nl +:+ "    </body>" +:+ nl +:+ "    </html>" +:+ nl +:+ "    ".

Definition subject_of (x : Session) : string :=
  "Session Summary: " +:+ horse_name x +:+ " (" +:+ str_of_date (session_date x) +:+ ")".

(** [encode_file(path)], which is also [image_to_base64(path)]. *)
Definition encode_file (path : string) : M string :=
  let! f := read_file path in
  ret (b64encode f).

Definition make_attachment (x : Session) (encoded label : string) : Attachment :=
  {| file_content := encoded;
     file_name := horse_name x +:+ "_" +:+ label +:+ ".png";
     file_type := "image/png";
     disposition := "attachment" |}.

(** The attachment loop of [Equine_Bodywork.py]: a file that does not
    exist is passed over. *)
Fixpoint attach_existing (x : Session) (sides : list (string * string))
    (attachments : list Attachment) : M (list Attachment) :=
  match sides with
  | [] => ret attachments
  | (path, label) :: rest =>
      let! found := os_path_exists path in
      if found then
        let! encoded := encode_file path in
        attach_existing x rest (attachments ++ [make_attachment x encoded label])
      else attach_existing x rest attachments
  end.

(** The attachment loop of [test_sendgrid.py]: every file is read. *)
Fixpoint attach_all (x : Session) (sides : list (string * string))
    (attachments : list Attachment) : M (list Attachment) :=
  match sides with
  | [] => ret attachments
  | (path, label) :: rest =>
      let! encoded := encode_file path in
      attach_all x rest (attachments ++ [make_attachment x encoded label])
  end.

(** [sg = SendGridAPIClient(api_key); sg.send(message)] *)
Definition sendgrid_send (message : Mail) : M unit := fun s =>
  (sg_send message, s, [EvSend message]).

(** The [try] block both variants end with. *)
Definition send_or_report (message : Mail) : M bool :=
  try_except
    (sendgrid_send message ;; ret true)
    (fun e => emit (StError "📋 SendGrid error:") ;; emit (StException e) ;; ret false).

Definition send_session_email (x : Session) (left_path right_path : string) : M bool :=
  let sender := (getenv "FROM_EMAIL", getenv "FROM_NAME") in
  let! attachments := attach_existing x [(left_path, "left"); (right_path, "right")] [] in
  let message :=
    {| from_email := sender;
       to_emails := client_email x;
       subject := subject_of x;
       html_content := html_content_of x;
       reply_to := Some "allisonk330@gmail.com";
       attachment := attachments |} in
  send_or_report message.

Definition send_session_email_dev (x : Session) (left_path right_path : string) : M bool :=
  let sender := (getenv "FROM_EMAIL", getenv "FROM_NAME") in
  let! left_inline := encode_file left_path in
  let! right_inline := encode_file right_path in
  let! attachments := attach_all x [(left_path, "left"); (right_path, "right")] [] in
  let message :=
    {| from_email := sender;
       to_emails := client_email x;
       subject := subject_of x;
       html_content := html_content_dev x left_inline right_inline;
       reply_to := None;
       attachment := attachments |} in
  send_or_report message.

(** ** The block run when the user presses the save button *)

Definition saved : event := StSuccess "✅ Session saved!".

(** Append the record to the store, creating the store if it is absent. *)
Definition persist_session (x : Session) : M unit :=
  let df := pd_DataFrame (session_data x) in
  let! found := os_path_exists csv_path in
  let! df := (if found
              then let! existing := pd_read_csv csv_path in ret (pd_concat existing df)
              else ret df) in
  to_csv df csv_path ;;
  emit saved.

Definition left_path_of (x : Session) : string := "data/" +:+ horse_name x +:+ "_left.png".
Definition right_path_of (x : Session) : string := "data/" +:+ horse_name x +:+ "_right.png".

Definition export_diagrams (x : Session) (canvas_left canvas_right : CanvasResult)
    (left_img right_img : loc) : M unit :=
  export_canvas_to_file canvas_left left_img (left_path_of x) ;;
  export_canvas_to_file canvas_right right_img (right_path_of x).

Definition deliver (send : Session -> string -> string -> M bool) (failed : string)
    (x : Session) : M unit :=
  if negb (String.eqb (client_email x) "") then
    let! sent := send x (left_path_of x) (right_path_of x) in
    if sent then emit (StSuccess "📧 Email sent to client!")
    else emit (StWarning failed)
  else ret tt.

(** The block, which the two files share up to the sending function and
    the text of the warning. *)
Definition session_block (send : Session -> string -> string -> M bool) (failed : string)
    (x : Session) (canvas_left canvas_right : CanvasResult) (left_img right_img : loc)
    : M unit :=
  persist_session x ;;
  export_diagrams x canvas_left canvas_right left_img right_img ;;
  deliver send failed x.

(** [Equine_Bodywork.py] *)
Definition save_session : Session -> CanvasResult -> CanvasResult -> loc -> loc -> M unit :=
  session_block send_session_email "⚠️ Email failed to send.".

(** [test_sendgrid.py] *)
Definition save_session_dev : Session -> CanvasResult -> CanvasResult -> loc -> loc -> M unit :=
  session_block send_session_email_dev "⚠️ Email failed to send. Check API key and logs.".

(** The diagram files a message may carry, with their labels. *)
Definition sides_of (x : Session) : list (string * string) :=
  [(left_path_of x, "left"); (right_path_of x, "right")].

(** One attachment for each of the files that exists, in order. *)
Definition attachments_of (x : Session) (s : state) (sides : list (string * string))
  : list Attachment :=
  flat_map (fun side =>
              match files s !! fst side with
              | Some f => [make_attachment x (b64encode f) (snd side)]
              | None => []
              end) sides.

(** The message [Equine_Bodywork.py] builds. *)
Definition mail_of (x : Session) (attachments : list Attachment) : Mail :=
  {| from_email := (getenv "FROM_EMAIL", getenv "FROM_NAME");
     to_emails := client_email x;
     subject := subject_of x;
     html_content := html_content_of x;
     reply_to := Some "allisonk330@gmail.com";
     attachment := attachments |}.

(** The message [test_sendgrid.py] builds from the two files. *)
Definition mail_dev (x : Session) (left_file right_file : file) : Mail :=
  {| from_email := (getenv "FROM_EMAIL", getenv "FROM_NAME");
     to_emails := client_email x;
     subject := subject_of x;
     html_content := html_content_dev x (b64encode left_file) (b64encode right_file);
     reply_to := None;
     attachment := [make_attachment x (b64encode left_file) "left";
                    make_attachment x (b64encode right_file) "right"] |}.

Definition session_columns : list string :=
  ["Date"; "Horse"; "Amount"; "Paid"; "Email"; "Notes"].

Definition session_row (x : Session) : list string := map snd (session_data x).

End Delivery.

(** ** A reference instance of the libraries

    Images are kept as the history of what was done to them, so that what a
    run drew can be read off the result. *)

Inductive picture : Type :=
  | Opened (name : string)
  | Converted (p : picture)
  | Lined (points : list (json * json)) (fill : list Z) (width : Z) (p : picture).

Definition is_number (j : json) : bool :=
  match j with
  | JNum _ => true
  | _ => false
  end.

Definition hex_digit (c : ascii) : option Z :=
  let n := Z.of_nat (nat_of_ascii c) in
  if (48 <=? n)%Z && (n <=? 57)%Z then Some (n - 48)%Z
  else if (97 <=? n)%Z && (n <=? 102)%Z then Some (n - 87)%Z
  else if (65 <=? n)%Z && (n <=? 70)%Z then Some (n - 55)%Z
  else None.

Definition hex_pair (a b : ascii) : option Z :=
  match hex_digit a, hex_digit b with
  | Some x, Some y => Some (16 * x + y)%Z
  | _, _ => None
  end.

(** Six-digit hexadecimal colours and three colour names. *)
Definition ref_getrgb (s : string) : result (list Z) :=
  match s with
  | String "#" (String r1 (String r2 (String g1 (String g2 (String b1 (String b2 EmptyString)))))) =>
      match hex_pair r1 r2, hex_pair g1 g2, hex_pair b1 b2 with
      | Some r, Some g, Some b => Ok [r; g; b]
      | _, _, _ => Raise ValueError
      end
  | _ =>
      if String.eqb s "red" then Ok [255; 0; 0]%Z
      else if String.eqb s "blue" then Ok [0; 0; 255]%Z
      else if String.eqb s "black" then Ok [0; 0; 0]%Z
      else Raise ValueError
  end.

Definition ref_draw_line (points : list (json * json)) (fill : list Z) (width : Z)
    (p : picture) : result picture :=
  if forallb (fun xy => is_number (fst xy) && is_number (snd xy)) points
     && (length fill <=? 4)
  then Ok (Lined points fill width p)
  else Raise TypeError.

Definition ref_pil : PIL :=
  {| image := picture;
     convert_rgba := Converted;
     draw_line := ref_draw_line;
     getrgb := ref_getrgb |}.

Fixpoint digits_value (s : string) (acc : Z) : option Z :=
  match s with
  | EmptyString => Some acc
  | String c t =>
      let n := Z.of_nat (nat_of_ascii c) in
      if (48 <=? n)%Z && (n <=? 57)%Z then digits_value t (10 * acc + (n - 48))%Z
      else None
  end.

(** Unsigned and signed decimal numerals. *)
Definition ref_int_of_str (s : string) : result Z :=
  match s with
  | EmptyString => Raise ValueError
  | String "-" t =>
      match t, digits_value t 0 with
      | String _ _, Some v => Ok (- v)%Z
      | _, _ => Raise ValueError
      end
  | _ => match digits_value s 0 with Some v => Ok v | None => Raise ValueError end
  end.

(** A non-negative amount with [places] decimals, the further ones cut. *)
Definition show_amount (places : nat) (q : Q) : string :=
  let scale := (10 ^ Z.of_nat places)%Z in
  let cents := Z.quot (Qnum q * scale) (Zpos (Qden q)) in
  let frac := pretty (scale + cents mod scale)%Z in
  pretty (cents / scale)%Z +:+ "." +:+
  match frac with
  | String _ t => t
  | EmptyString => EmptyString
  end.

(** Dates are kept as their ISO text. *)
Definition ref_py : Builtins :=
  {| int_of_str := ref_int_of_str;
     date := string;
     str_of_date := fun d => d;
     str_of_float := show_amount 1 |}.

(** A delivery service with a given outcome, and no environment. *)
Definition ref_services (outcome : Mail -> result unit) : @Services ref_pil :=
  {| b64encode := fun f => match f with PngFile _ => "cG5n" | CsvFile _ => "Y3N2" end;
     getenv := fun _ => None;
     sg_send := outcome;
     format_2f := show_amount 2 |}.

Definition delivery_up : Mail -> result unit := fun _ => Ok tt.
Definition delivery_down : Mail -> result unit := fun _ => Raise (LibraryError "HTTP Error 401").

(** The world at start-up: the two diagrams are open, no file is written. *)
Definition left_img : loc := 1%positive.
Definition right_img : loc := 2%positive.

Definition startup : @state ref_pil :=
  {| images := <[left_img := Opened "images/horse_left.png"]>
                 (<[right_img := Opened "images/horse_right.png"]> ∅);
     files := ∅ |}.

(** ** Vocabulary of the statements *)

(** The path segments of the data model, and the list Fabric.js writes for
    each. *)
Inductive segment : Type :=
  | MoveTo (x y : json)
  | LineTo (x y : json)
  | QuadraticTo (controlX controlY endX endY : json).

Definition encode (g : segment) : json :=
  match g with
  | MoveTo x y => JArr [JStr "M"; x; y]
  | LineTo x y => JArr [JStr "L"; x; y]
  | QuadraticTo cx cy x y => JArr [JStr "Q"; cx; cy; x; y]
  end.

Definition endpoint (g : segment) : json * json :=
  match g with
  | MoveTo x y => (x, y)
  | LineTo x y => (x, y)
  | QuadraticTo _ _ x y => (x, y)
  end.

Definition straight (g : segment) : bool :=
  match g with
  | QuadraticTo _ _ _ _ => false
  | _ => true
  end.

(** [obj.get("type")] on a dict. *)
Definition type_of (kvs : list (string * json)) : json :=
  match assoc "type" kvs with Some t => t | None => JNull end.

Definition is_dict (j : json) : bool :=
  match j with
  | JObj _ => true
  | _ => false
  end.

(** The payload is a dict whose ["objects"] entry is the list [objs]. *)
Definition payload_objects (data : json) (objs : list json) : Prop :=
  exists kvs, data = JObj kvs /\ assoc "objects" kvs = Some (JArr objs).

(** What an element of the payload is: a path object with its segments, or
    an object of another type. *)
Inductive object_view : json -> option (list segment) -> Prop :=
  | view_path kvs segs :
      assoc "type" kvs = Some (JStr "path") ->
      assoc "path" kvs = Some (JArr (map encode segs)) ->
      object_view (JObj kvs) (Some segs)
  | view_other kvs :
      is_str "path" (type_of kvs) = false ->
      object_view (JObj kvs) None.

Definition straight_only (v : option (list segment)) : Prop :=
  match v with
  | Some segs => forallb straight segs = true
  | None => True
  end.

Section Vocabulary.
Context {pil : PIL} {py : Builtins}.

(** The calls of [draw.line] among the events of a run. *)
Definition is_draw (ev : event) : bool :=
  match ev with
  | EvDrawLine _ _ _ _ => true
  | _ => false
  end.

(** The polyline the specification asks for: one call through the
    endpoints of the segments, in their order, when the stroke has a
    style and at least two vertices. *)
Definition polyline_calls (img : loc) (obj : json) (v : option (list segment)) : list event :=
  match v with
  | None => []
  | Some segs =>
      match stroke_style obj with
      | Ok (fill, width) =>
          if 2 <=? length segs then [EvDrawLine img (map endpoint segs) fill width] else []
      | Raise _ => []
      end
  end.

Fixpoint payload_calls (img : loc) (objs : list json) (views : list (option (list segment)))
  : list event :=
  match objs, views with
  | obj :: objs', v :: views' => polyline_calls img obj v ++ payload_calls img objs' views'
  | _, _ => []
  end.

(** The image a sequence of events leaves: each accepted call of
    [draw.line] is applied, in order. *)
Definition paint_event (i : image) (ev : event) : image :=
  match ev with
  | EvDrawLine _ points fill width =>
      match draw_line points fill width i with
      | Ok i' => i'
      | Raise _ => i
      end
  | _ => i
  end.

Definition paint (i : image) (evs : list event) : image := fold_left paint_event evs i.

(** An event of the object loop: a call of [draw.line] on [img] through
    at least two vertices, or a report. *)
Definition loop_event (img : loc) (ev : event) : Prop :=
  match ev with
  | EvDrawLine target points _ _ => target = img /\ 2 <= length points
  | EvPrint _ _ => True
  | _ => False
  end.

(** An event of a run of [export_canvas_to_file]. *)
Definition export_event (img : loc) (path : string) (ev : event) : Prop :=
  loop_event img ev \/ ev = EvWriteFile path.

(** The delivery attempts among the events of a run. *)
Definition sends (evs : list event) : list Mail :=
  omap (fun ev => match ev with EvSend m => Some m | _ => None end) evs.
End Vocabulary.

(** ** Example payloads and sessions *)

Definition pt (n : Z) : json := JNum (inject_Z n).

Definition zigzag : list segment :=
  [MoveTo (pt 10) (pt 20); LineTo (pt 30) (pt 40); LineTo (pt 50) (pt 20)].

Definition green_kvs : list (string * json) :=
  [("type", JStr "path"); ("stroke", JStr "#00ff00"); ("strokeWidth", JNum 5);
   ("path", JArr (map encode zigzag))].

(** A stroke that declares neither colour nor width. *)
Definition plain_kvs : list (string * json) :=
  [("type", JStr "path"); ("path", JArr (map encode zigzag))].

Definition bad_colour_kvs : list (string * json) :=
  [("type", JStr "path"); ("stroke", JStr "notacolor"); ("strokeWidth", JNum 5);
   ("path", JArr (map encode zigzag))].

Definition bad_width_kvs : list (string * json) :=
  [("type", JStr "path"); ("stroke", JStr "#00ff00"); ("strokeWidth", JNull);
   ("path", JArr (map encode zigzag))].

Definition curve_kvs : list (string * json) :=
  [("type", JStr "path"); ("stroke", JStr "blue");
   ("path", JArr [encode (MoveTo (pt 0) (pt 0));
                  encode (QuadraticTo (pt 40) (pt 90) (pt 80) (pt 0));
                  encode (LineTo (pt 90) (pt 10))])].

Definition chord_kvs : list (string * json) :=
  [("type", JStr "path"); ("stroke", JStr "blue");
   ("path", JArr [encode (MoveTo (pt 0) (pt 0));
                  encode (LineTo (pt 80) (pt 0));
                  encode (LineTo (pt 90) (pt 10))])].


Definition payload_of (objs : list json) : json :=
  JObj [("version", JStr "4.4.0"); ("objects", JArr objs)].

Definition bo : @Session ref_py :=
  {| session_date := "2024-05-17" : @date ref_py;
     horse_name := "Bo";
     amount := 85;
     paid := true;
     client_email := "owner@example.org";
     notes := "Tight poll." |}.


(** ** The rasteriser as [test_sendgrid.py] writes it

    The function of the same name in the second file, statement by
    statement; it differs from the first in the segment loop, which has one
    branch per command letter. *)

Fixpoint collect_points_dev (segments : list json) (path_points : list (json * json))
  : result (list (json * json)) :=
  match segments with
  | [] => Ok path_points
  | segment :: rest =>
      match segment_point_dev segment with
      | Raise e => Raise e
      | Ok None => collect_points_dev rest path_points
      | Ok (Some p) => collect_points_dev rest (path_points ++ [p])
      end
  end.

Definition stroke_points_dev (obj : json) : result (list (json * json)) :=
  (let? path := py_get obj "path" (JArr []) in
   let? segments := py_iter path in
   collect_points_dev segments [])%res.

Definition plan_stroke_dev {pil : PIL} {py : Builtins} (obj : json) : result stroke_plan :=
  (let? style := stroke_style obj in
   let? path_points := stroke_points_dev obj in
   Ok {| plan_fill := fst style; plan_width := snd style; plan_points := path_points |})%res.

Section RasteriserDev.
Context {pil : PIL} {py : Builtins}.

Definition draw_path_dev (img : loc) (obj : json) : M unit :=
  let! plan := lift (plan_stroke_dev obj) in
  if 1 <? length (plan_points plan)
  then imagedraw_line img (plan_points plan) (plan_fill plan) (plan_width plan)
  else ret tt.

Definition draw_object_dev (img : loc) (obj : json) : M unit :=
  let! ty := lift (py_get obj "type" JNull) in
  if is_str "path" ty
  then try_except (draw_path_dev img obj) (fun e => emit (EvPrint report e))
  else ret tt.

Definition export_canvas_to_file_dev (canvas_data : CanvasResult)
    (background_image : loc) (save_path : string) : M unit :=
  let! absent := lift (payload_absent (json_data canvas_data)) in
  if absent then ret tt
  else
    let! img := image_convert_rgba background_image in
    let! objects := lift (py_getitem (json_data canvas_data) "objects") in
    let! items := lift (py_iter objects) in
    for_each items (draw_object_dev img) ;;
    image_save img save_path.
End RasteriserDev.

(** ** More vocabulary *)

(** A call of [draw.line] on [img] that carries out the plan of a path object
    among [items], or a report of the object loop. *)
Definition item_event {pil : PIL} {py : Builtins} (img : loc) (items : list json)
    (ev : event) : Prop :=
  match ev with
  | EvDrawLine target points fill width =>
      target = img
      /\ exists kvs plan,
           In (JObj kvs) items
           /\ is_str "path" (type_of kvs) = true
           /\ plan_stroke (JObj kvs) = Ok plan
           /\ points = plan_points plan
           /\ fill = plan_fill plan
           /\ width = plan_width plan
           /\ 2 <= length points
  | EvPrint msg _ => msg = report
  | _ => False
  end.

(** The fill of a call is a resolved colour followed by the alpha 255. *)
Definition opaque_call {pil : PIL} (ev : event) : Prop :=
  match ev with
  | EvDrawLine _ _ fill _ =>
      exists colour rgb, imagecolor_getrgb colour = Ok rgb /\ fill = rgb ++ [255%Z]
  | _ => True
  end.

(** The items the object loop visits: [json_data["objects"]], iterated. *)
Definition payload_items (data : json) : result (list json) :=
  rbind (py_getitem data "objects") py_iter.

(** The paths written during a run, in order. *)
Definition writes (evs : list event) : list string :=
  omap (fun ev => match ev with EvWriteFile p => Some p | _ => None end) evs.

(** What the user is shown during a run, in order. *)
Definition is_notice (ev : event) : bool :=
  match ev with
  | StSuccess _ | StWarning _ | StError _ | StException _ => true
  | _ => false
  end.

Fixpoint has_newline (s : string) : bool :=
  match s with
  | EmptyString => false
  | String c t => Ascii.eqb c "010"%char || has_newline t
  end.

(** A recognised command with fewer coordinates than it reads. *)
Definition too_short (cmd : json) (coords : list json) : bool :=
  ((is_str "M" cmd || is_str "L" cmd) && (length coords <? 2))
  || (negb (is_str "M" cmd || is_str "L" cmd) && is_str "Q" cmd && (length coords <? 4)).

(** ** More example payloads *)

Definition text_kvs : list (string * json) :=
  [("type", JStr "textbox"); ("text", JStr "near side"); ("stroke", JNull)].

Definition dot_kvs : list (string * json) :=
  [("type", JStr "path"); ("stroke", JStr "red");
   ("path", JArr [encode (MoveTo (pt 7) (pt 7))])].

Definition short_kvs : list (string * json) :=
  [("type", JStr "path"); ("stroke", JStr "red");
   ("path", JArr [encode (MoveTo (pt 0) (pt 0));
                  encode (LineTo (pt 80) (pt 0));
                  JArr [JStr "Q"; pt 40; pt 90; pt 80]])].

(** The world after an earlier session of a horse named Bo. *)
Definition after_earlier_session : @state ref_pil :=
  {| images := images startup;
     files := <["data/Bo_left.png" := @PngFile ref_pil (Opened "earlier left")]>
                (<["data/Bo_right.png" := @PngFile ref_pil (Opened "earlier right")]> ∅) |}.

Definition wide_kvs : list (string * json) :=
  [("type", JStr "path"); ("stroke", JStr "red"); ("strokeWidth", JNum (29 # 10));
   ("path", JArr (map encode zigzag))].

(** * Properties *)

Section BasicFacts.
Context {pil : PIL}.

Lemma triple_eta {A B C} (p : A * B * C) : p = (fst (fst p), snd (fst p), snd p).
Proof. now destruct p as [[a b] c]. Qed.

Lemma bind_ok {A B} (m : M A) (f : A -> M B) s a s1 ev1 :
  m s = (Ok a, s1, ev1) ->
  bind m f s = (let '(r, s2, ev2) := f a s1 in (r, s2, ev1 ++ ev2)).
Proof. intros E. unfold bind. now rewrite E. Qed.

Lemma bind_raise {A B} (m : M A) (f : A -> M B) s e s1 ev1 :
  m s = (Raise e, s1, ev1) -> bind m f s = (Raise e, s1, ev1).
Proof. intros E. unfold bind. now rewrite E. Qed.

Lemma bind_lift_ok {A B} (a : A) (f : A -> M B) s :
  bind (lift (Ok a)) f s = f a s.
Proof. unfold bind, lift. now destruct (f a s) as [[r s2] ev2]. Qed.

Lemma bind_ret {A B} (a : A) (f : A -> M B) s : bind (ret a) f s = f a s.
Proof. apply bind_lift_ok. Qed.

Lemma bind_assoc {A B C} (m : M A) (f : A -> M B) (g : B -> M C) s :
  bind (bind m f) g s = bind m (fun a => bind (f a) g) s.
Proof.
  unfold bind. destruct (m s) as [[[a|e] s1] ev1]; [|reflexivity].
  destruct (f a s1) as [[[b|e] s2] ev2]; [|reflexivity].
  destruct (g b s2) as [[r s3] ev3]. now rewrite app_assoc.
Qed.

Lemma bind_ext {A B} (m : M A) (f g : A -> M B) s :
  (forall a s1, f a s1 = g a s1) -> bind m f s = bind m g s.
Proof.
  intros E. unfold bind. destruct (m s) as [[[a|e] s1] ev1]; [|reflexivity].
  now rewrite E.
Qed.

Lemma for_each_app {A} (l1 l2 : list A) (body : A -> M unit) s :
  for_each (l1 ++ l2) body s = bind (for_each l1 body) (fun _ => for_each l2 body) s.
Proof.
  revert s. induction l1 as [|x l1 IH]; intros s; simpl.
  - now rewrite bind_ret.
  - rewrite bind_assoc. apply bind_ext. intros _ s1. apply IH.
Qed.
End BasicFacts.

Section Segments.

Lemma segment_point_dev_same segment : segment_point_dev segment = segment_point segment.
Proof.
  unfold segment_point_dev, segment_point.
  destruct (py_index segment 0) as [cmd|e]; [|reflexivity]. simpl.
  destruct (py_tail segment) as [coords|e]; [|reflexivity]. simpl.
  now destruct (is_str "M" cmd), (is_str "L" cmd).
Qed.

Lemma segment_point_encode g : segment_point (encode g) = Ok (Some (endpoint g)).
Proof. now destruct g. Qed.

Lemma collect_points_app before after acc :
  collect_points (before ++ after) acc
  = rbind (collect_points before acc) (collect_points after).
Proof.
  revert acc. induction before as [|g before IH]; intros acc; simpl; [reflexivity|].
  destruct (segment_point g) as [[p|]|e]; auto.
Qed.


Lemma collect_points_encode segs acc :
  collect_points (map encode segs) acc = Ok (acc ++ map endpoint segs).
Proof.
  revert acc. induction segs as [|g segs IH]; intros acc; simpl collect_points.
  - now rewrite app_nil_r.
  - rewrite segment_point_encode, IH. simpl. now rewrite <- app_assoc.
Qed.


End Segments.

Section RasteriserFacts.
Context {pil : PIL} {py : Builtins}.

Lemma state_same (s : state) img i :
  images s !! img = Some i ->
  {| images := <[img := i]> (images s); files := files s |} = s.
Proof. intros E. destruct s as [im fl]; simpl in *. now rewrite insert_id. Qed.

Lemma paint_app i ev1 ev2 : paint (paint i ev1) ev2 = paint i (ev1 ++ ev2).
Proof. unfold paint. now rewrite fold_left_app. Qed.

Lemma stroke_points_path kvs segments :
  assoc "path" kvs = Some (JArr segments) ->
  stroke_points (JObj kvs) = collect_points segments [].
Proof. intros E. unfold stroke_points. simpl. now rewrite E. Qed.


(** One iteration of the object loop on a dict, case by case. *)
Lemma draw_object_dict img kvs s i :
  images s !! img = Some i ->
  draw_object img (JObj kvs) s =
  if is_str "path" (type_of kvs) then
    match plan_stroke (JObj kvs) with
    | Raise e => (Ok tt, s, [EvPrint report e])
    | Ok plan =>
        if 1 <? length (plan_points plan) then
          let call := EvDrawLine img (plan_points plan) (plan_fill plan) (plan_width plan) in
          match draw_line (plan_points plan) (plan_fill plan) (plan_width plan) i with
          | Ok i' => (Ok tt, {| images := <[img := i']> (images s); files := files s |}, [call])
          | Raise e => (Ok tt, s, [call; EvPrint report e])
          end
        else (Ok tt, s, [])
    end
  else (Ok tt, s, []).
Proof.
  intros E. unfold draw_object. simpl py_get. rewrite bind_lift_ok.
  fold (type_of kvs). destruct (is_str "path" (type_of kvs)); [|reflexivity].
  unfold try_except, draw_path, bind, lift.
  destruct (plan_stroke (JObj kvs)) as [plan|e]; [|reflexivity].
  destruct (1 <? length (plan_points plan)); [|reflexivity].
  unfold imagedraw_line. rewrite E.
  now destruct (draw_line _ _ _ i).
Qed.

(** The same iteration on anything that is not a dict. *)
Lemma draw_object_not_dict img obj s :
  (forall kvs, obj <> JObj kvs) ->
  draw_object img obj s = (Raise AttributeError, s, []).
Proof. intros N. destruct obj; try reflexivity. now destruct (N kvs). Qed.

(** What one iteration leaves behind. *)
Lemma draw_object_spec img obj s i :
  images s !! img = Some i ->
  exists r ev,
    draw_object img obj s
    = (r, {| images := <[img := paint i ev]> (images s); files := files s |}, ev)
    /\ Forall (loop_event img) ev.
Proof.
  intros E.
  assert (Hsame : forall (r : result unit) ev, paint i ev = i -> Forall (loop_event img) ev ->
            exists r' ev', (r, s, ev)
              = (r', {| images := <[img := paint i ev']> (images s); files := files s |}, ev')
              /\ Forall (loop_event img) ev').
  { intros r ev P F. exists r, ev. rewrite P, state_same by exact E. auto. }
  destruct obj as [| | | | |kvs];
    try (apply (Hsame (Raise AttributeError) []); [reflexivity | constructor]).
  rewrite (draw_object_dict _ _ _ _ E).
  destruct (is_str "path" (type_of kvs)); [|apply Hsame; [reflexivity | constructor]].
  destruct (plan_stroke (JObj kvs)) as [plan|e];
    [|apply Hsame; [reflexivity | repeat constructor]].
  destruct (1 <? length (plan_points plan)) eqn:L; [|apply Hsame; [reflexivity | constructor]].
  apply Nat.ltb_lt in L.
  destruct (draw_line _ _ _ i) as [i'|e] eqn:D.
  - exists (Ok tt), [EvDrawLine img (plan_points plan) (plan_fill plan) (plan_width plan)].
    split; [|repeat constructor; lia]. unfold paint. simpl. now rewrite D.
  - apply Hsame; [|repeat constructor; lia]. unfold paint. simpl. now rewrite D.
Qed.

(** What the whole object loop leaves behind. *)
Lemma loop_spec img objs s i :
  images s !! img = Some i ->
  exists r ev,
    for_each objs (draw_object img) s
    = (r, {| images := <[img := paint i ev]> (images s); files := files s |}, ev)
    /\ Forall (loop_event img) ev.
Proof.
  revert s i. induction objs as [|obj objs IH]; intros s i E; simpl.
  - exists (Ok tt), []. split; [|constructor]. unfold ret. now rewrite state_same.
  - destruct (draw_object_spec img obj s i E) as (r1 & ev1 & E1 & F1).
    unfold bind. rewrite E1. destruct r1 as [[]|e]; [|now exists (Raise e), ev1].
    destruct (IH {| images := <[img := paint i ev1]> (images s); files := files s |}
                (paint i ev1)) as (r2 & ev2 & E2 & F2).
    + simpl. apply lookup_insert_eq.
    + rewrite E2. exists r2, (ev1 ++ ev2). split; [|now apply Forall_app].
      simpl. now rewrite insert_insert_eq, paint_app.
Qed.

(** A run on a payload that has an object list: convert, loop, save. *)
Lemma export_present data objs bg path s b :
  payload_objects data objs ->
  images s !! bg = Some b ->
  export_canvas_to_file {| json_data := data |} bg path s =
  let img := fresh (dom (images s)) in
  bind (for_each objs (draw_object img)) (fun _ => image_save img path)
    {| images := <[img := convert_rgba b]> (images s); files := files s |}.
Proof.
  intros (kvs & -> & O) E. unfold export_canvas_to_file. simpl json_data.
  assert (A : payload_absent (JObj kvs) = Ok false).
  { unfold payload_absent. simpl. destruct kvs; [discriminate|]. simpl in *.
    destruct p as [k v]. destruct (String.eqb k "objects"); [reflexivity|].
    now rewrite O. }
  rewrite A, bind_lift_ok.
  unfold bind at 1. unfold image_convert_rgba. rewrite E.
  simpl py_getitem. rewrite O, bind_lift_ok. simpl py_iter. rewrite bind_lift_ok.
  cbv zeta.
  destruct (bind _ _ _) as [[r s2] ev2]. reflexivity.
Qed.

(** A run that finds no object list returns at once. *)
Lemma export_absent data bg path s :
  payload_absent data = Ok true ->
  export_canvas_to_file {| json_data := data |} bg path s = (Ok tt, s, []).
Proof. intros A. unfold export_canvas_to_file. simpl. now rewrite A, bind_lift_ok. Qed.

Lemma fresh_image_new (s : state) : images s !! fresh (dom (images s)) = None.
Proof. apply not_elem_of_dom. apply is_fresh. Qed.
End RasteriserFacts.

Section Strokes.
Context {pil : PIL} {py : Builtins}.




(** A stroke whose style and vertices resolve is drawn by one call of
    [draw.line] when it has two vertices or more. *)
Lemma draw_object_styled img kvs s fill width pts :
  is_str "path" (type_of kvs) = true ->
  stroke_style (JObj kvs) = Ok (fill, width) ->
  stroke_points (JObj kvs) = Ok pts ->
  draw_object img (JObj kvs) s
  = if 1 <? length pts
    then try_except (imagedraw_line img pts fill width) (fun e => emit (EvPrint report e)) s
    else (Ok tt, s, []).
Proof.
  intros T S P. unfold draw_object. simpl py_get. rewrite bind_lift_ok.
  fold (type_of kvs). rewrite T.
  unfold try_except, draw_path, plan_stroke. rewrite S, P. simpl rbind.
  rewrite bind_lift_ok. simpl.
  now destruct (1 <? length pts).
Qed.

(** A stroke whose style does not resolve is passed over. *)
Lemma draw_object_unstyled img kvs s e :
  is_str "path" (type_of kvs) = true ->
  stroke_style (JObj kvs) = Raise e ->
  draw_object img (JObj kvs) s = (Ok tt, s, [EvPrint report e]).
Proof.
  intros T S. unfold draw_object. simpl py_get. rewrite bind_lift_ok.
  fold (type_of kvs). rewrite T.
  unfold try_except, draw_path, plan_stroke. now rewrite S.
Qed.

(** C3, as the code has it.  An absent colour is opaque red and an absent
    width is 3, and the stroke is drawn with them; a declared colour
    string and a declared width are used as declared; a colour or a width
    that is present but malformed makes the stroke be passed over with a
    report, no default being put in its place. *)
Theorem stroke_style_resolution img kvs s :
  is_str "path" (type_of kvs) = true ->
  getrgb "#ff0000" = Ok [255; 0; 0]%Z ->
  (assoc "stroke" kvs = None ->
     forall w, py_int (match assoc "strokeWidth" kvs with Some v => v | None => JNum 3 end)
               = Ok w ->
     stroke_style (JObj kvs) = Ok ([255; 0; 0; 255]%Z, w))
  /\ (assoc "strokeWidth" kvs = None ->
      forall rgb, imagecolor_getrgb
                    (match assoc "stroke" kvs with Some c => c | None => JStr "#ff0000" end)
                  = Ok rgb ->
      stroke_style (JObj kvs) = Ok (rgb ++ [255%Z], 3%Z))
  /\ (forall c rgb (n : Z),
        assoc "stroke" kvs = Some (JStr c) -> getrgb c = Ok rgb ->
        assoc "strokeWidth" kvs = Some (JNum (inject_Z n)) ->
        stroke_style (JObj kvs) = Ok (rgb ++ [255%Z], n))
  /\ (forall fill width pts,
        stroke_style (JObj kvs) = Ok (fill, width) ->
        stroke_points (JObj kvs) = Ok pts -> 2 <= length pts ->
        draw_object img (JObj kvs) s
        = try_except (imagedraw_line img pts fill width) (fun e => emit (EvPrint report e)) s)
  /\ (forall c e,
        assoc "stroke" kvs = Some c -> imagecolor_getrgb c = Raise e ->
        exists e', draw_object img (JObj kvs) s = (Ok tt, s, [EvPrint report e']))
  /\ (forall v e,
        assoc "strokeWidth" kvs = Some v -> py_int v = Raise e ->
        draw_object img (JObj kvs) s = (Ok tt, s, [EvPrint report e])).
Proof.
  intros T Red. repeat split.
  - intros S w W. unfold stroke_style. simpl py_get. rewrite S. simpl rbind.
    rewrite W. simpl. now rewrite Red.
  - intros W rgb C. unfold stroke_style. simpl py_get. rewrite W. simpl rbind.
    simpl. now rewrite C.
  - intros c rgb n S C W. unfold stroke_style. simpl py_get. rewrite S, W. simpl.
    rewrite C. simpl. now rewrite Z.quot_1_r.
  - intros fill width pts S P L. rewrite (draw_object_styled _ _ _ _ _ _ T S P).
    destruct (1 <? length pts) eqn:B; [reflexivity|]. apply Nat.ltb_ge in B. lia.
  - intros c e S C.
    destruct (py_int (match assoc "strokeWidth" kvs with Some v => v | None => JNum 3 end))
      as [w|e'] eqn:W.
    + exists e. apply draw_object_unstyled; [exact T|].
      unfold stroke_style. simpl py_get. rewrite S. simpl rbind. rewrite W. simpl.
      now rewrite C.
    + exists e'. apply draw_object_unstyled; [exact T|].
      unfold stroke_style. simpl py_get. simpl rbind. now rewrite W.
  - intros v e W C. apply draw_object_unstyled; [exact T|].
    unfold stroke_style. simpl py_get. rewrite W. simpl rbind. now rewrite C.
Qed.
End Strokes.

Section ExportRuns.
Context {pil : PIL} {py : Builtins}.

Lemma draw_object_view img obj v s i :
  object_view obj v ->
  images s !! img = Some i ->
  exists ev,
    draw_object img obj s
    = (Ok tt, {| images := <[img := paint i ev]> (images s); files := files s |}, ev)
    /\ List.filter is_draw ev = polyline_calls img obj v.
Proof.
  intros V E.
  assert (Hsame : forall ev, paint i ev = i ->
            (Ok tt, s, ev)
            = (Ok tt, {| images := <[img := paint i ev]> (images s); files := files s |}, ev)).
  { intros ev P. now rewrite P, state_same. }
  destruct V as [kvs segs T P | kvs T]; rewrite (draw_object_dict _ _ _ _ E).
  - unfold type_of. rewrite T. simpl is_str. unfold plan_stroke, polyline_calls.
    destruct (stroke_style (JObj kvs)) as [[fill width]|e]; simpl rbind.
    + rewrite (stroke_points_path _ _ P), collect_points_encode. simpl.
      rewrite length_map.
      destruct (length segs) as [|[|n]]; simpl;
        [exists []; split; [now apply Hsame|reflexivity] ..|].
      destruct (draw_line _ _ _ i) as [i'|e] eqn:D.
      * exists [EvDrawLine img (map endpoint segs) fill width].
        split; [|reflexivity]. unfold paint. simpl. now rewrite D.
      * exists [EvDrawLine img (map endpoint segs) fill width; EvPrint report e].
        split; [apply Hsame|reflexivity]. unfold paint. simpl. now rewrite D.
    + exists [EvPrint report e]. split; [now apply Hsame|reflexivity].
  - rewrite T. exists []. split; [now apply Hsame|reflexivity].
Qed.

Lemma loop_views img objs views s i :
  Forall2 object_view objs views ->
  images s !! img = Some i ->
  exists ev,
    for_each objs (draw_object img) s
    = (Ok tt, {| images := <[img := paint i ev]> (images s); files := files s |}, ev)
    /\ List.filter is_draw ev = payload_calls img objs views.
Proof.
  intros V. revert s i. induction V as [|obj v objs views V1 V IH]; intros s i E; simpl.
  - exists []. split; [|reflexivity]. unfold ret. now rewrite state_same.
  - destruct (draw_object_view img obj v s i V1 E) as (ev1 & E1 & F1).
    unfold bind. rewrite E1.
    destruct (IH {| images := <[img := paint i ev1]> (images s); files := files s |}
                (paint i ev1)) as (ev2 & E2 & F2).
    + simpl. apply lookup_insert_eq.
    + rewrite E2. exists (ev1 ++ ev2). split.
      * simpl. now rewrite insert_insert_eq, paint_app.
      * now rewrite List.filter_app, F1, F2.
Qed.

(** The polylines of a payload: every path object whose style resolves
    and that has two vertices or more is drawn by one call of [draw.line]
    through the end points of its segments, in their order, and the saved
    image is the converted background with those calls applied in payload
    order. *)
Lemma export_draws_endpoints data objs views bg path s b :
  payload_objects data objs ->
  Forall2 object_view objs views ->
  images s !! bg = Some b ->
  exists s' ev,
    export_canvas_to_file {| json_data := data |} bg path s = (Ok tt, s', ev)
    /\ List.filter is_draw ev = payload_calls (fresh (dom (images s))) objs views
    /\ files s' !! path = Some (PngFile (paint (convert_rgba b) ev)).
Proof.
  intros O V E. rewrite (export_present _ _ _ _ _ _ O E). cbv zeta.
  set (img := fresh (dom (images s))).
  destruct (loop_views img objs views
              {| images := <[img := convert_rgba b]> (images s); files := files s |}
              (convert_rgba b) V) as (ev & E1 & F1).
  { simpl. apply lookup_insert_eq. }
  unfold bind. rewrite E1. unfold image_save. simpl. rewrite lookup_insert_eq.
  eexists _, _. split; [reflexivity|]. split.
  - rewrite List.filter_app, F1. simpl. now rewrite app_nil_r.
  - simpl. rewrite lookup_insert_eq. now rewrite <- paint_app.
Qed.

(** C1. On a payload whose path objects have only MoveTo and LineTo
    segments, the run accumulates for each path object exactly the (x, y)
    end points of its segments, in segment order, and draws one connected
    polyline through them: the calls of [draw.line] are, object by object,
    one call through those points (for an object that has at least two of
    them and a style that resolves), and the saved image is the converted
    background with those polylines. *)
Theorem move_line_polyline data objs views bg path s b :
  payload_objects data objs ->
  Forall2 object_view objs views ->
  Forall straight_only views ->
  images s !! bg = Some b ->
  (forall kvs segs, In (JObj kvs, Some segs) (combine objs views) ->
     stroke_points (JObj kvs) = Ok (map endpoint segs))
  /\ exists s' ev,
    export_canvas_to_file {| json_data := data |} bg path s = (Ok tt, s', ev)
    /\ List.filter is_draw ev = payload_calls (fresh (dom (images s))) objs views
    /\ files s' !! path = Some (PngFile (paint (convert_rgba b) ev)).
Proof.
  intros O V _ E. split; [|now apply export_draws_endpoints].
  clear O E. induction V as [|obj v objs views V1 V IH]; intros kvs segs I; [destruct I|].
  destruct I as [I|I]; [|now apply IH].
  injection I as -> ->. inversion V1 as [kvs' segs' T P|]; subst.
  now rewrite (stroke_points_path _ _ P), collect_points_encode.
Qed.

Lemma export_no_image data objs bg path s :
  payload_objects data objs ->
  images s !! bg = None ->
  export_canvas_to_file {| json_data := data |} bg path s
  = (Raise (LibraryError "no such image"), s, []).
Proof.
  intros (kvs & -> & O) E. unfold export_canvas_to_file. simpl json_data.
  assert (A : payload_absent (JObj kvs) = Ok false).
  { unfold payload_absent. simpl. destruct kvs; [discriminate|]. simpl in *.
    destruct p as [k v]. destruct (String.eqb k "objects"); [reflexivity|].
    now rewrite O. }
  rewrite A, bind_lift_ok. unfold bind, image_convert_rgba. now rewrite E.
Qed.



Lemma loop_dicts img objs s i :
  forallb is_dict objs = true ->
  images s !! img = Some i ->
  fst (fst (for_each objs (draw_object img) s)) = Ok tt.
Proof.
  revert s i. induction objs as [|obj objs IH]; intros s i D E; [reflexivity|].
  simpl in D. apply andb_prop in D as [D1 D]. simpl for_each. unfold bind.
  destruct (draw_object_spec img obj s i E) as (r1 & ev1 & E1 & _).
  destruct obj as [| | | | |kvs]; try discriminate.
  assert (R : r1 = Ok tt).
  { rewrite (draw_object_dict _ _ _ _ E) in E1.
    destruct (is_str "path" (type_of kvs)); [|congruence].
    destruct (plan_stroke (JObj kvs)) as [plan|e]; [|congruence].
    destruct (1 <? length (plan_points plan)); [|congruence].
    destruct (draw_line _ _ _ i); congruence. }
  subst r1. rewrite E1.
  specialize (IH {| images := <[img := paint i ev1]> (images s); files := files s |}
                (paint i ev1) D).
  destruct (for_each objs _ _) as [[r2 s2] ev2]. simpl in *.
  apply IH. apply lookup_insert_eq.
Qed.

End ExportRuns.

Section ExportFrame.
Context {pil : PIL} {py : Builtins}.

(** What the part after the conversion does: the object loop and the
    save, on the working copy [img]. *)
Lemma export_tail_shape data img path (s0 : state) c :
  images s0 !! img = Some c ->
  exists r s' ev,
    (let! objects := lift (py_getitem data "objects") in
     let! items := lift (py_iter objects) in
     for_each items (draw_object img) ;; image_save img path) s0 = (r, s', ev)
    /\ (exists i, images s' = <[img := i]> (images s0))
    /\ (files s' = files s0 \/ exists i, files s' = <[path := PngFile i]> (files s0))
    /\ (r = Ok tt -> exists i, files s' = <[path := PngFile i]> (files s0))
    /\ Forall (export_event img path) ev.
Proof.
  intros E.
  assert (Stop : forall e, exists (r : result unit) s' ev,
            (Raise e, s0, @nil event) = (r, s', ev)
            /\ (exists i, images s' = <[img := i]> (images s0))
            /\ (files s' = files s0 \/ exists i, files s' = <[path := PngFile i]> (files s0))
            /\ (r = Ok tt -> exists i, files s' = <[path := PngFile i]> (files s0))
            /\ Forall (export_event img path) ev).
  { intros e. exists (Raise e), s0, []. split; [reflexivity|]. split.
    - exists c. now rewrite insert_id.
    - split; [now left|]. split; [discriminate|constructor]. }
  destruct (py_getitem data "objects") as [objects|e]; [|apply Stop].
  rewrite bind_lift_ok.
  destruct (py_iter objects) as [items|e]; [|apply Stop].
  rewrite bind_lift_ok.
  destruct (loop_spec img items s0 c E) as (r1 & ev1 & E1 & F1).
  unfold bind. rewrite E1. destruct r1 as [[]|e].
  - unfold image_save. simpl. rewrite lookup_insert_eq.
    eexists _, _, _. split; [reflexivity|]. simpl. split; [eauto|].
    split; [eauto|]. split; [eauto|].
    apply Forall_app. split.
    + eapply Forall_impl; [exact F1|]. intros ev L. now left.
    + constructor; [now right|constructor].
  - eexists _, _, _. split; [reflexivity|]. simpl. split; [eauto|].
    split; [now left|]. split; [discriminate|].
    eapply Forall_impl; [exact F1|]. intros ev L. now left.
Qed.

(** What a run of [export_canvas_to_file] can change: it may add one
    image, the working copy, and write one file, the one at [path]. *)
Lemma export_shape cd bg path s :
  exists r s' ev,
    export_canvas_to_file cd bg path s = (r, s', ev)
    /\ (images s' = images s
        \/ (exists i, images s' = <[fresh (dom (images s)) := i]> (images s))
           /\ images s !! bg <> None)
    /\ (files s' = files s \/ exists i, files s' = <[path := PngFile i]> (files s))
    /\ (r = Ok tt -> payload_absent (json_data cd) = Ok false ->
        exists i, files s' = <[path := PngFile i]> (files s))
    /\ Forall (export_event (fresh (dom (images s))) path) ev.
Proof.
  unfold export_canvas_to_file.
  destruct (payload_absent (json_data cd)) as [[|]|e].
  - rewrite bind_lift_ok. exists (Ok tt), s, []. split; [reflexivity|].
    split; [now left|]. split; [now left|]. split; [discriminate|constructor].
  - rewrite bind_lift_ok. unfold bind at 1. unfold image_convert_rgba.
    destruct (images s !! bg) as [b|] eqn:E.
    + set (img := fresh (dom (images s))).
      destruct (export_tail_shape (json_data cd) img path
                  {| images := <[img := convert_rgba b]> (images s); files := files s |}
                  (convert_rgba b)) as (r & s' & ev & E1 & (i & I) & Fl & Sv & Ev).
      { simpl. apply lookup_insert_eq. }
      rewrite E1. exists r, s', ev. split; [reflexivity|]. simpl in *.
      rewrite insert_insert_eq in I. split; [right; split; [eauto|congruence]|].
      split; [exact Fl|]. split; [auto|exact Ev].
    + exists (Raise (LibraryError "no such image")), s, []. split; [reflexivity|].
      split; [now left|]. split; [now left|]. split; [discriminate|constructor].
  - exists (Raise e), s, []. split; [reflexivity|].
    split; [now left|]. split; [now left|]. split; [discriminate|constructor].
Qed.

(** C6. Whatever the payload, every call of [draw.line] is made on an
    image that did not exist before the run, the working copy, and
    through at least two vertices; the background image passed in, like
    every image that existed before the run, is the same after it. *)
Theorem background_untouched cd bg path s :
  let '(r, s', ev) := export_canvas_to_file cd bg path s in
  images s' !! bg = images s !! bg
  /\ (forall l i, images s !! l = Some i -> images s' !! l = Some i)
  /\ Forall (fun ev => match ev with
                       | EvDrawLine target points _ _ =>
                           images s !! target = None /\ 2 <= length points
                       | _ => True
                       end) ev.
Proof.
  destruct (export_shape cd bg path s) as (r & s' & ev & -> & Im & _ & _ & Ev).
  assert (Old : forall l i, images s !! l = Some i -> images s' !! l = Some i).
  { intros l i L. destruct Im as [->|[(j & ->) _]]; [exact L|].
    rewrite lookup_insert_ne; [exact L|].
    intros <-. now rewrite fresh_image_new in L. }
  split; [|split; [exact Old|]].
  - destruct (images s !! bg) as [b|] eqn:E; [now apply Old|].
    destruct Im as [->|[_ N]]; [exact E|]. now destruct N.
  - eapply Forall_impl; [exact Ev|]. intros [] [L|W]; try exact I; try discriminate.
    destruct L as [-> L]. split; [apply fresh_image_new|exact L].
Qed.

(** C5, as the code has it.  On a payload whose object list is empty the
    saved image is the background converted to RGBA and nothing else; on
    an absent payload ([None], or a dict without an object list) the run
    returns at once and saves no image. *)
Theorem empty_or_absent_payload data bg path s b :
  images s !! bg = Some b ->
  (payload_objects data [] ->
     export_canvas_to_file {| json_data := data |} bg path s
     = (Ok tt,
        {| images := <[fresh (dom (images s)) := convert_rgba b]> (images s);
           files := <[path := PngFile (convert_rgba b)]> (files s) |},
        [EvWriteFile path]))
  /\ ((data = JNull \/ exists kvs, data = JObj kvs /\ assoc "objects" kvs = None) ->
      export_canvas_to_file {| json_data := data |} bg path s = (Ok tt, s, [])).
Proof.
  intros E. split.
  - intros O. rewrite (export_present _ _ _ _ _ _ O E). cbv zeta.
    simpl for_each. rewrite bind_ret. unfold image_save. simpl.
    now rewrite lookup_insert_eq.
  - intros A. apply export_absent. destruct A as [->|(kvs & -> & N)]; [reflexivity|].
    unfold payload_absent. destruct kvs as [|kv kvs]; [reflexivity|].
    change (py_truthy (JObj (kv :: kvs))) with true. unfold py_contains.
    now rewrite N.
Qed.
End ExportFrame.

Section RecordStore.
Context {pil : PIL} {py : Builtins}.







Lemma session_row_length x : length (session_row x) = 6.
Proof. reflexivity. Qed.


End RecordStore.

Section SessionFacts.
Context {pil : PIL} {py : Builtins} {svc : Services}.

Lemma left_suffix_clash h : h +:+ "_left.png" <> "session_data.csv".
Proof.
  do 16 (destruct h as [|? h]; [discriminate|]; simpl; intros E; injection E as _ E;
         revert E).
  destruct h; discriminate.
Qed.

Lemma right_suffix_clash h : h +:+ "_right.png" <> "session_data.csv".
Proof.
  do 16 (destruct h as [|? h]; [discriminate|]; simpl; intros E; injection E as _ E;
         revert E).
  destruct h; discriminate.
Qed.

(** The diagrams are never written over the record store. *)
Lemma png_path_not_csv x : left_path_of x <> csv_path /\ right_path_of x <> csv_path.
Proof.
  split; intros E; injection E as E;
    [now apply left_suffix_clash in E | now apply right_suffix_clash in E].
Qed.

Lemma attach_existing_spec x sides acc (s : state) :
  attach_existing x sides acc s = (Ok (acc ++ attachments_of x s sides), s, []).
Proof.
  revert acc. induction sides as [|[path label] sides IH]; intros acc; simpl.
  - unfold ret. now rewrite app_nil_r.
  - unfold bind at 1. unfold os_path_exists.
    destruct (files s !! path) as [f|] eqn:E; cbv beta iota zeta.
    + unfold encode_file, read_file, bind. rewrite E. unfold ret. cbv beta iota zeta.
      rewrite IH. simpl. now rewrite <- app_assoc.
    + now rewrite IH.
Qed.

Lemma send_or_report_spec m (s : state) :
  send_or_report m s
  = match sg_send m with
    | Ok _ => (Ok true, s, [EvSend m])
    | Raise e => (Ok false, s, [EvSend m; StError "📋 SendGrid error:"; StException e])
    end.
Proof.
  unfold send_or_report, try_except, bind, sendgrid_send, emit, ret.
  now destruct (sg_send m) as [[]|e].
Qed.

Lemma send_session_email_spec x (s : state) :
  send_session_email x (left_path_of x) (right_path_of x) s
  = send_or_report (mail_of x (attachments_of x s (sides_of x))) s.
Proof.
  unfold send_session_email. unfold bind at 1.
  rewrite attach_existing_spec. simpl app. fold (sides_of x).
  change {| from_email := _; to_emails := _; subject := _; html_content := _;
            reply_to := _; attachment := _ |}
    with (mail_of x (attachments_of x s (sides_of x))).
  now destruct (send_or_report _ s) as [[r s2] ev2].
Qed.

(** The delivery step of [Equine_Bodywork.py], outcome by outcome. *)
Lemma deliver_spec failed x (s : state) :
  deliver send_session_email failed x s
  = if String.eqb (client_email x) "" then (Ok tt, s, [])
    else
      let m := mail_of x (attachments_of x s (sides_of x)) in
      match sg_send m with
      | Ok _ => (Ok tt, s, [EvSend m; StSuccess "📧 Email sent to client!"])
      | Raise e =>
          (Ok tt, s,
           [EvSend m; StError "📋 SendGrid error:"; StException e; StWarning failed])
      end.
Proof.
  unfold deliver. destruct (String.eqb (client_email x) ""); [reflexivity|].
  change (negb false) with true. cbv beta iota. unfold bind.
  rewrite send_session_email_spec, send_or_report_spec. cbv zeta.
  now destruct (sg_send _) as [[]|e].
Qed.

Lemma send_session_email_dev_spec x (s : state) :
  send_session_email_dev x (left_path_of x) (right_path_of x) s
  = match files s !! left_path_of x, files s !! right_path_of x with
    | Some fl, Some fr => send_or_report (mail_dev x fl fr) s
    | _, _ => (Raise FileNotFoundError, s, [])
    end.
Proof.
  unfold send_session_email_dev. unfold bind at 1. unfold encode_file at 1.
  unfold bind at 1. unfold read_file at 1.
  destruct (files s !! left_path_of x) as [fl|] eqn:El; [|reflexivity].
  unfold ret at 1. cbv beta iota zeta.
  unfold bind at 1. unfold encode_file at 1. unfold bind at 1. unfold read_file at 1.
  destruct (files s !! right_path_of x) as [fr|] eqn:Er; [|reflexivity].
  unfold ret at 1. cbv beta iota zeta.
  unfold bind at 1. simpl attach_all.
  unfold bind at 1. unfold encode_file at 1. unfold bind at 1. unfold read_file at 1.
  rewrite El. unfold ret at 1. cbv beta iota zeta.
  unfold bind at 1. unfold encode_file at 1. unfold bind at 1. unfold read_file at 1.
  rewrite Er. unfold ret at 1. cbv beta iota zeta. unfold ret at 1. cbv beta iota zeta.
  simpl app.
  change {| from_email := _; to_emails := _; subject := _; html_content := _;
            reply_to := _; attachment := _ |} with (mail_dev x fl fr).
  now destruct (send_or_report _ s) as [[r s2] ev2].
Qed.

(** The delivery step of [test_sendgrid.py], outcome by outcome. *)
Lemma deliver_dev_spec failed x (s : state) :
  deliver send_session_email_dev failed x s
  = if String.eqb (client_email x) "" then (Ok tt, s, [])
    else
      match files s !! left_path_of x, files s !! right_path_of x with
      | Some fl, Some fr =>
          let m := mail_dev x fl fr in
          match sg_send m with
          | Ok _ => (Ok tt, s, [EvSend m; StSuccess "📧 Email sent to client!"])
          | Raise e =>
              (Ok tt, s,
               [EvSend m; StError "📋 SendGrid error:"; StException e; StWarning failed])
          end
      | _, _ => (Raise FileNotFoundError, s, [])
      end.
Proof.
  unfold deliver. destruct (String.eqb (client_email x) ""); [reflexivity|].
  change (negb false) with true. cbv beta iota. unfold bind.
  rewrite send_session_email_dev_spec.
  destruct (files s !! left_path_of x) as [fl|]; [|reflexivity].
  destruct (files s !! right_path_of x) as [fr|]; [|reflexivity].
  rewrite send_or_report_spec. cbv zeta.
  now destruct (sg_send _) as [[]|e].
Qed.

Lemma sends_app ev1 ev2 : sends (ev1 ++ ev2) = sends ev1 ++ sends ev2.
Proof. unfold sends. apply omap_app. Qed.

Lemma sends_export img path ev : Forall (export_event img path) ev -> sends ev = [].
Proof.
  induction 1 as [|ev evs E _ IH]; [reflexivity|].
  change (ev :: evs) with ([ev] ++ evs). rewrite sends_app, IH, app_nil_r.
  destruct E as [L| ->]; [|reflexivity]. now destruct ev.
Qed.

(** What the persisting step does when it succeeds: it writes the store,
    whose last record is the session laid out under the header. *)
Lemma persist_ok x (s : state) s1 ev1 :
  persist_session x s = (Ok tt, s1, ev1) ->
  ev1 = [EvWriteFile csv_path; saved]
  /\ images s1 = images s
  /\ exists header body,
       files s1 !! csv_path
       = Some (CsvFile (header :: body ++ [realign session_columns header (session_row x)])).
Proof.
  unfold persist_session, bind, os_path_exists, pd_read_csv, to_csv, emit, ret.
  destruct (files s !! csv_path) as [[i|[|header body]]|] eqn:E; rewrite ?E;
    cbv beta iota zeta; try discriminate.
  - intros [= <- <-]. split; [reflexivity|]. split; [reflexivity|].
    eexists _, _. simpl. rewrite lookup_insert_eq. reflexivity.
  - intros [= <- <-]. split; [reflexivity|]. split; [reflexivity|].
    exists session_columns, []. simpl. rewrite lookup_insert_eq. reflexivity.
Qed.

Lemma persist_sends x (s : state) : sends (snd (persist_session x s)) = [].
Proof.
  unfold persist_session, bind, os_path_exists, pd_read_csv, to_csv, emit, ret.
  now destruct (files s !! csv_path) as [[i|[|header body]]|] eqn:E; rewrite ?E.
Qed.

(** What the two exports leave: the record store as it was, no delivery
    attempt, and both diagram files when both payloads had an object
    list. *)
Lemma export_diagrams_shape x cl cr li ri (s : state) :
  exists r s' ev,
    export_diagrams x cl cr li ri s = (r, s', ev)
    /\ files s' !! csv_path = files s !! csv_path
    /\ sends ev = []
    /\ (r = Ok tt ->
        payload_absent (json_data cl) = Ok false ->
        payload_absent (json_data cr) = Ok false ->
        is_Some (files s' !! left_path_of x) /\ is_Some (files s' !! right_path_of x)).
Proof.
  destruct (png_path_not_csv x) as [Nl Nr].
  unfold export_diagrams, bind.
  destruct (export_shape cl li (left_path_of x) s)
    as (r1 & s1 & ev1 & -> & _ & F1 & S1 & E1).
  assert (C1 : files s1 !! csv_path = files s !! csv_path).
  { destruct F1 as [->|(i & ->)]; [reflexivity|]. now rewrite lookup_insert_ne. }
  destruct r1 as [[]|e].
  - destruct (export_shape cr ri (right_path_of x) s1)
      as (r2 & s2 & ev2 & -> & _ & F2 & S2 & E2).
    eexists _, _, _. split; [reflexivity|]. split.
    + destruct F2 as [->|(i & ->)]; [exact C1|]. now rewrite lookup_insert_ne.
    + split.
      * rewrite sends_app, (sends_export _ _ _ E1), (sends_export _ _ _ E2). reflexivity.
      * intros -> Al Ar. destruct (S1 eq_refl Al) as (il & Il).
        destruct (S2 eq_refl Ar) as (ir & Ir). rewrite Ir. split.
        -- destruct (decide (right_path_of x = left_path_of x)) as [Eq|Ne].
           ++ rewrite Eq, lookup_insert_eq. eauto.
           ++ rewrite lookup_insert_ne by exact Ne. rewrite Il, lookup_insert_eq. eauto.
        -- rewrite lookup_insert_eq. eauto.
  - eexists _, _, _. split; [reflexivity|]. split; [exact C1|].
    split; [exact (sends_export _ _ _ E1)|discriminate].
Qed.

(** The block, step by step. *)
Lemma session_block_unfold send failed x cl cr li ri (s : state) :
  session_block send failed x cl cr li ri s
  = match persist_session x s with
    | (Ok _, s1, ev1) =>
        match export_diagrams x cl cr li ri s1 with
        | (Ok _, s2, ev2) =>
            let '(r, s3, ev3) := deliver send failed x s2 in (r, s3, ev1 ++ ev2 ++ ev3)
        | (Raise e, s2, ev2) => (Raise e, s2, ev1 ++ ev2)
        end
    | (Raise e, s1, ev1) => (Raise e, s1, ev1)
    end.
Proof.
  unfold session_block. unfold bind at 1.
  destruct (persist_session x s) as [[[[]|e] s1] ev1]; [|reflexivity].
  unfold bind at 1.
  destruct (export_diagrams x cl cr li ri s1) as [[[[]|e] s2] ev2]; [|reflexivity].
  now destruct (deliver send failed x s2) as [[r s3] ev3].
Qed.

Lemma two_attachments x (s : state) :
  is_Some (files s !! left_path_of x) ->
  is_Some (files s !! right_path_of x) ->
  length (attachments_of x s (sides_of x)) = 2.
Proof.
  intros [fl El] [fr Er]. unfold attachments_of, sides_of. simpl. now rewrite El, Er.
Qed.

(** C8, as the code has it.  A session without a client email makes no
    delivery attempt.  A session with a client email that runs to its end
    makes exactly one: in [Equine_Bodywork.py] the request carries one
    attachment for each of the left and right diagram files that exists,
    so two when both exist, which is the case whenever both canvas
    payloads had an object list; in [test_sendgrid.py] the run reaches
    its end only if both files exist, and the request carries the two.
    A session that stops on an error makes no attempt. *)
Theorem delivery_attempts x cl cr li ri (s : state) :
  (forall r s' ev,
     save_session x cl cr li ri s = (r, s', ev) ->
     (client_email x = "" -> sends ev = [])
     /\ (r <> Ok tt -> sends ev = [])
     /\ (client_email x <> "" -> r = Ok tt ->
         sends ev = [mail_of x (attachments_of x s' (sides_of x))]
         /\ attachment (mail_of x (attachments_of x s' (sides_of x)))
            = attachments_of x s' (sides_of x)
         /\ (is_Some (files s' !! left_path_of x) ->
             is_Some (files s' !! right_path_of x) ->
             length (attachments_of x s' (sides_of x)) = 2)
         /\ (payload_absent (json_data cl) = Ok false ->
             payload_absent (json_data cr) = Ok false ->
             length (attachments_of x s' (sides_of x)) = 2)))
  /\ (forall r s' ev,
       save_session_dev x cl cr li ri s = (r, s', ev) ->
       (client_email x = "" -> sends ev = [])
       /\ (r <> Ok tt -> sends ev = [])
       /\ (client_email x <> "" -> r = Ok tt ->
           exists fl fr,
             files s' !! left_path_of x = Some fl
             /\ files s' !! right_path_of x = Some fr
             /\ sends ev = [mail_dev x fl fr]
             /\ length (attachment (mail_dev x fl fr)) = 2)).
Proof.
  pose proof (persist_sends x s) as P1.
  destruct (persist_session x s) as [[r1 s1] ev1] eqn:P. simpl in P1.
  destruct (export_diagrams_shape x cl cr li ri s1) as (r2 & s2 & ev2 & X & _ & X2 & Both).
  split; intros r s' ev; unfold save_session, save_session_dev;
    rewrite session_block_unfold, P;
    (destruct r1 as [[]|e1];
     [|intros [= <- <- <-]; repeat split; try (intros; exact P1); congruence]);
    rewrite X;
    (destruct r2 as [[]|e2];
     [|intros [= <- <- <-]; rewrite sends_app, P1, X2;
       repeat split; try (intros; reflexivity); congruence]).
  - rewrite deliver_spec.
    destruct (String.eqb (client_email x) "") eqn:Em.
    + apply String.eqb_eq in Em. intros [= <- <- <-].
      rewrite !sends_app, P1, X2. repeat split; try (intros; reflexivity); congruence.
    + apply String.eqb_neq in Em. cbv zeta.
      destruct (sg_send _) as [[]|e]; intros [= <- <- <-];
        rewrite !sends_app, P1, X2; (split; [congruence|]); (split; [congruence|]);
        intros _ _; (split; [reflexivity|]); (split; [reflexivity|]);
        (split; [apply two_attachments|]);
        intros Al Ar; destruct (Both eq_refl Al Ar); now apply two_attachments.
  - rewrite deliver_dev_spec.
    destruct (String.eqb (client_email x) "") eqn:Em.
    + apply String.eqb_eq in Em. intros [= <- <- <-].
      rewrite !sends_app, P1, X2. repeat split; try (intros; reflexivity); congruence.
    + apply String.eqb_neq in Em.
      destruct (files s2 !! left_path_of x) as [fl|] eqn:El;
        [destruct (files s2 !! right_path_of x) as [fr|] eqn:Er|].
      * cbv zeta. destruct (sg_send _) as [[]|e]; intros [= <- <- <-];
          rewrite !sends_app, P1, X2; (split; [congruence|]); (split; [congruence|]);
          intros _ _; exists fl, fr; auto.
      * intros [= <- <- <-]. rewrite !sends_app, P1, X2.
        repeat split; try (intros; reflexivity); congruence.
      * intros [= <- <- <-]. rewrite !sends_app, P1, X2.
        repeat split; try (intros; reflexivity); congruence.
Qed.
End SessionFacts.


(** * The statements at work on the reference libraries *)

(** C1 on a payload of one three-point stroke. *)
Lemma move_line_polyline_witness :
  payload_objects (payload_of [JObj green_kvs]) [JObj green_kvs]
  /\ Forall2 object_view [JObj green_kvs] [Some zigzag]
  /\ Forall straight_only [Some zigzag]
  /\ images startup !! left_img = Some (Opened "images/horse_left.png")
  /\ exists s' ev,
       @export_canvas_to_file ref_pil ref_py {| json_data := payload_of [JObj green_kvs] |}
         left_img "data/Bo_left.png" startup = (Ok tt, s', ev)
       /\ List.filter is_draw ev
          = [EvDrawLine 3%positive
               [(pt 10, pt 20); (pt 30, pt 40); (pt 50, pt 20)] [0; 255; 0; 255]%Z 5%Z].
Proof.
  assert (O : payload_objects (payload_of [JObj green_kvs]) [JObj green_kvs]).
  { eexists. split; reflexivity. }
  assert (V : Forall2 object_view [JObj green_kvs] [Some zigzag]).
  { repeat constructor. }
  assert (S : Forall straight_only [Some zigzag]).
  { repeat constructor. }
  assert (E : images startup !! left_img = Some (Opened "images/horse_left.png")).
  { reflexivity. }
  repeat (split; [assumption|]).
  destruct (@move_line_polyline ref_pil ref_py _ _ _ left_img "data/Bo_left.png" startup _
              O V S E) as (_ & s' & ev & R & D & _).
  exists s', ev. split; [exact R|]. rewrite D. reflexivity.
Defined.



(** C3 as the specification has it fails: a stroke whose colour is not a
    colour, and a stroke whose width is [None], are not drawn in red or with
    width 3; each is reported and passed over, and the saved image is the
    converted background. *)
Lemma malformed_style_not_defaulted :
  let run :=
    @export_canvas_to_file ref_pil ref_py
      {| json_data := payload_of [JObj bad_colour_kvs; JObj bad_width_kvs] |}
      left_img "data/Bo_left.png" startup in
  snd run
  = [EvPrint report ValueError; EvPrint report TypeError; EvWriteFile "data/Bo_left.png"]
  /\ List.filter is_draw (snd run) = []
  /\ files (snd (fst run)) !! "data/Bo_left.png"
     = Some (@PngFile ref_pil (Converted (Opened "images/horse_left.png"))).
Proof. split; [reflexivity|]; split; reflexivity. Qed.

(** C3 as amended, on a stroke that declares neither colour nor width. *)
Lemma stroke_style_resolution_witness :
  is_str "path" (type_of plain_kvs) = true
  /\ @getrgb ref_pil "#ff0000" = Ok [255; 0; 0]%Z
  /\ @stroke_style ref_pil ref_py (JObj plain_kvs) = Ok ([255; 0; 0; 255]%Z, 3%Z).
Proof.
  split; [reflexivity|]. split; [reflexivity|].
  destruct (@stroke_style_resolution ref_pil ref_py 3%positive plain_kvs startup
              eq_refl eq_refl) as (A & _).
  apply A; reflexivity.
Defined.


(** C5 as the specification has it fails: on an absent payload the run
    saves no image at all. *)
Lemma absent_payload_saves_nothing :
  let run :=
    @export_canvas_to_file ref_pil ref_py {| json_data := JNull |}
      left_img "data/Bo_left.png" startup in
  fst (fst run) = Ok tt /\ snd run = [] /\ files (snd (fst run)) !! "data/Bo_left.png" = None.
Proof. split; [reflexivity|]; split; reflexivity. Qed.

(** C5 as amended, on a payload whose object list is empty. *)
Lemma empty_or_absent_payload_witness :
  images startup !! left_img = Some (Opened "images/horse_left.png")
  /\ exists s',
       @export_canvas_to_file ref_pil ref_py {| json_data := payload_of [] |}
         left_img "data/Bo_left.png" startup = (Ok tt, s', [EvWriteFile "data/Bo_left.png"])
       /\ files s' !! "data/Bo_left.png"
          = Some (@PngFile ref_pil (Converted (Opened "images/horse_left.png"))).
Proof.
  split; [reflexivity|].
  destruct (@empty_or_absent_payload ref_pil ref_py (payload_of []) left_img
              "data/Bo_left.png" startup (Opened "images/horse_left.png") eq_refl)
    as (Empty & _).
  eexists. split.
  - apply Empty. eexists. split; reflexivity.
  - simpl. apply lookup_insert_eq.
Defined.

(** C6 on a payload that draws. *)
Lemma background_untouched_witness :
  let '(r, s', ev) :=
    @export_canvas_to_file ref_pil ref_py {| json_data := payload_of [JObj green_kvs] |}
      left_img "data/Bo_left.png" startup in
  images s' !! left_img = Some (Opened "images/horse_left.png").
Proof.
  pose proof (@background_untouched ref_pil ref_py
                {| json_data := payload_of [JObj green_kvs] |}
                left_img "data/Bo_left.png" startup) as U.
  destruct (@export_canvas_to_file ref_pil ref_py _ left_img "data/Bo_left.png" startup)
    as [[r s'] ev].
  cbv beta iota zeta in U |- *.
  destruct U as (U & _). exact (eq_trans U eq_refl).
Defined.



(** C8 as the specification has it fails: with a client email and no
    payload on either canvas, the one request carries no attachment. *)
Lemma request_without_attachments :
  let run :=
    @save_session ref_pil ref_py (ref_services delivery_up) bo
      {| json_data := JNull |} {| json_data := JNull |} left_img right_img startup in
  fst (fst run) = Ok tt
  /\ length (sends (snd run)) = 1
  /\ map attachment (sends (snd run)) = [[]].
Proof. split; [reflexivity|]; split; reflexivity. Qed.

(** C8 as amended, on a session whose two canvases were drawn on. *)
Lemma delivery_attempts_witness :
  let drawn := {| json_data := payload_of [JObj green_kvs] |} in
  let run :=
    @save_session ref_pil ref_py (ref_services delivery_up) bo drawn drawn
      left_img right_img startup in
  client_email bo <> ""
  /\ fst (fst run) = Ok tt
  /\ length (sends (snd run)) = 1
  /\ length (@attachments_of ref_pil ref_py (ref_services delivery_up) bo (snd (fst run))
               (@sides_of ref_py bo)) = 2.
Proof.
  intros drawn run.
  destruct (@delivery_attempts ref_pil ref_py (ref_services delivery_up) bo drawn drawn
              left_img right_img startup) as (Main & _).
  assert (R : fst (fst run) = Ok tt) by reflexivity.
  assert (Em : client_email bo <> "") by discriminate.
  destruct (Main _ _ _ (triple_eta run)) as (_ & _ & Sent).
  destruct (Sent Em R) as (One & _ & _ & Two).
  split; [exact Em|]. split; [exact R|]. split; [now rewrite One|].
  apply Two; reflexivity.
Defined.


(** * Further properties of the rasteriser *)

Section MoreRasteriser.
Context {pil : PIL} {py : Builtins}.

Lemma for_each_ext {A} (l : list A) (f g : A -> M unit) s :
  (forall x s1, f x s1 = g x s1) -> for_each l f s = for_each l g s.
Proof.
  intros E. revert s. induction l as [|x l IH]; intros s; [reflexivity|].
  simpl. unfold bind. rewrite E. destruct (g x s) as [[[[]|e] s1] ev1]; [|reflexivity].
  now rewrite IH.
Qed.

Lemma collect_points_dev_same segments acc :
  collect_points_dev segments acc = collect_points segments acc.
Proof.
  revert acc. induction segments as [|g segments IH]; intros acc; [reflexivity|].
  simpl. rewrite segment_point_dev_same.
  destruct (segment_point g) as [[p|]|e]; auto.
Qed.

Lemma plan_stroke_dev_same obj : plan_stroke_dev obj = plan_stroke obj.
Proof.
  unfold plan_stroke_dev, plan_stroke, stroke_points_dev, stroke_points.
  destruct (stroke_style obj) as [style|e]; [|reflexivity]. simpl.
  destruct (py_get obj "path" (JArr [])) as [path|e]; [|reflexivity]. simpl.
  destruct (py_iter path) as [segments|e]; [|reflexivity]. simpl.
  now rewrite collect_points_dev_same.
Qed.

Lemma draw_object_dev_same img obj s : draw_object_dev img obj s = draw_object img obj s.
Proof.
  unfold draw_object_dev, draw_object, draw_path_dev, draw_path.
  now rewrite plan_stroke_dev_same.
Qed.

(** X1. The two files rasterise alike: on every payload, background and
    world, [export_canvas_to_file] of [test_sendgrid.py] returns, changes
    and reports exactly what the one of [Equine_Bodywork.py] does. *)
Theorem rasterisers_agree cd bg path s :
  export_canvas_to_file_dev cd bg path s = export_canvas_to_file cd bg path s.
Proof.
  unfold export_canvas_to_file_dev, export_canvas_to_file.
  apply bind_ext. intros absent s1. destruct absent; [reflexivity|].
  apply bind_ext. intros img s2.
  apply bind_ext. intros objects s3.
  apply bind_ext. intros items s4.
  unfold bind. rewrite (for_each_ext items _ _ s4 (draw_object_dev_same img)).
  reflexivity.
Qed.

(** The run on a payload that has a background and passes the guard. *)
Lemma export_general cd bg path s b :
  payload_absent (json_data cd) = Ok false ->
  images s !! bg = Some b ->
  export_canvas_to_file cd bg path s =
  let img := fresh (dom (images s)) in
  let s0 := {| images := <[img := convert_rgba b]> (images s); files := files s |} in
  match payload_items (json_data cd) with
  | Raise e => (Raise e, s0, [])
  | Ok items => bind (for_each items (draw_object img)) (fun _ => image_save img path) s0
  end.
Proof.
  intros A E. unfold export_canvas_to_file, payload_items. rewrite A, bind_lift_ok.
  unfold bind at 1. unfold image_convert_rgba. rewrite E. cbv zeta.
  destruct (py_getitem (json_data cd) "objects") as [objects|e]; simpl rbind.
  - rewrite bind_lift_ok. destruct (py_iter objects) as [items|e].
    + rewrite bind_lift_ok. now destruct (bind _ _ _) as [[r s2] ev2].
    + reflexivity.
  - reflexivity.
Qed.

Lemma payload_objects_items data objs :
  payload_objects data objs ->
  payload_absent data = Ok false /\ payload_items data = Ok objs.
Proof.
  intros (kvs & -> & O). split.
  - unfold payload_absent. destruct kvs as [|kv kvs]; [discriminate|].
    change (py_truthy (JObj (kv :: kvs))) with true. unfold py_contains. now rewrite O.
  - unfold payload_items. simpl. now rewrite O.
Qed.

Lemma draw_object_other img kvs s :
  is_str "path" (type_of kvs) = false -> draw_object img (JObj kvs) s = (Ok tt, s, []).
Proof.
  intros T. unfold draw_object. simpl py_get. rewrite bind_lift_ok.
  fold (type_of kvs). now rewrite T.
Qed.

Lemma loop_without_other img before kvs after s :
  is_str "path" (type_of kvs) = false ->
  for_each (before ++ JObj kvs :: after) (draw_object img) s
  = for_each (before ++ after) (draw_object img) s.
Proof.
  intros T. rewrite !for_each_app. apply bind_ext. intros _ s1.
  simpl for_each. unfold bind. rewrite (draw_object_other _ _ _ T).
  now destruct (for_each after (draw_object img) s1) as [[r s2] ev2].
Qed.

(** X2. An object of the payload whose type is not "path" is passed over
    without a trace: the run returns, changes and reports exactly what it
    does on the payload without that object, whatever else the object
    holds. *)
Theorem other_objects_ignored data data' before kvs after bg path s :
  payload_objects data (before ++ JObj kvs :: after) ->
  payload_objects data' (before ++ after) ->
  is_str "path" (type_of kvs) = false ->
  export_canvas_to_file {| json_data := data |} bg path s
  = export_canvas_to_file {| json_data := data' |} bg path s.
Proof.
  intros O O' T. destruct (images s !! bg) as [b|] eqn:E.
  - rewrite (export_present _ _ _ _ _ _ O E), (export_present _ _ _ _ _ _ O' E).
    cbv zeta. unfold bind. now rewrite (loop_without_other _ _ _ _ _ T).
  - now rewrite (export_no_image _ _ _ _ _ O E), (export_no_image _ _ _ _ _ O' E).
Qed.

Lemma writes_app ev1 ev2 : writes (ev1 ++ ev2) = writes ev1 ++ writes ev2.
Proof. unfold writes. apply omap_app. Qed.

Lemma writes_loop img ev : Forall (loop_event img) ev -> writes ev = [].
Proof.
  induction 1 as [|ev evs E _ IH]; [reflexivity|].
  change (ev :: evs) with ([ev] ++ evs). rewrite writes_app, IH, app_nil_r.
  now destruct ev.
Qed.

(** X3. An element of the object list that is not a dict stops the run:
    it raises AttributeError out of [export_canvas_to_file], the objects
    after it are not looked at, and no image is saved; the files are as
    they were. *)
Theorem non_dict_object_aborts data before bad after bg path s b :
  payload_objects data (before ++ bad :: after) ->
  is_dict bad = false ->
  forallb is_dict before = true ->
  images s !! bg = Some b ->
  exists s' ev,
    export_canvas_to_file {| json_data := data |} bg path s = (Raise AttributeError, s', ev)
    /\ files s' = files s
    /\ writes ev = []
    /\ ev = snd (for_each before (draw_object (fresh (dom (images s))))
                   {| images := <[fresh (dom (images s)) := convert_rgba b]> (images s);
                      files := files s |}).
Proof.
  intros O N D E. rewrite (export_present _ _ _ _ _ _ O E). cbv zeta.
  set (img := fresh (dom (images s))).
  set (s0 := {| images := <[img := convert_rgba b]> (images s); files := files s |}).
  assert (E0 : images s0 !! img = Some (convert_rgba b)) by apply lookup_insert_eq.
  destruct (loop_spec img before s0 _ E0) as (r1 & ev1 & L1 & F1).
  pose proof (loop_dicts img before s0 _ D E0) as R. rewrite L1 in R. cbv [fst] in R.
  subst r1. unfold bind. rewrite for_each_app. unfold bind. rewrite L1.
  simpl for_each. unfold bind. rewrite draw_object_not_dict.
  - eexists _, _. split; [reflexivity|]. split; [reflexivity|].
    rewrite app_nil_r. split; [exact (writes_loop _ _ F1)|reflexivity].
  - intros kvs ->. discriminate.
Qed.

Lemma draw_object_unplanned img kvs s e :
  is_str "path" (type_of kvs) = true ->
  plan_stroke (JObj kvs) = Raise e ->
  draw_object img (JObj kvs) s = (Ok tt, s, [EvPrint report e]).
Proof.
  intros T P. unfold draw_object. simpl py_get. rewrite bind_lift_ok.
  fold (type_of kvs). rewrite T.
  unfold try_except, draw_path. now rewrite P.
Qed.

Lemma segment_too_short cmd coords :
  too_short cmd coords = true ->
  segment_point (JArr (cmd :: coords)) = Raise IndexError.
Proof.
  unfold too_short, segment_point. simpl py_index. simpl py_tail. simpl rbind.
  destruct (is_str "M" cmd || is_str "L" cmd); simpl.
  - rewrite orb_false_r. intros L. apply Nat.ltb_lt in L.
    destruct coords as [|a [|c coords]]; simpl in *; try reflexivity; lia.
  - destruct (is_str "Q" cmd); simpl; [|discriminate]. intros L. apply Nat.ltb_lt in L.
    destruct coords as [|a [|c [|d [|f coords]]]]; simpl in *; try reflexivity; lia.
Qed.

(** X4. A recognised segment with too few coordinates (M or L with fewer
    than two, Q with fewer than four) costs the whole stroke: the index
    error is reported and nothing of the stroke is drawn, not even the
    vertices read before that segment. *)
Theorem short_segment_discards_stroke img kvs before cmd coords after s style pts :
  is_str "path" (type_of kvs) = true ->
  stroke_style (JObj kvs) = Ok style ->
  assoc "path" kvs = Some (JArr (before ++ JArr (cmd :: coords) :: after)) ->
  collect_points before [] = Ok pts ->
  too_short cmd coords = true ->
  draw_object img (JObj kvs) s = (Ok tt, s, [EvPrint report IndexError]).
Proof.
  intros T S P B Sh. apply draw_object_unplanned; [exact T|].
  unfold plan_stroke. rewrite S. simpl rbind.
  rewrite (stroke_points_path _ _ P), collect_points_app, B. simpl.
  now rewrite (segment_too_short _ _ Sh).
Qed.

(** X5. A stroke with fewer than two vertices leaves no trace: nothing is
    drawn and nothing is reported. *)
Theorem short_stroke_leaves_no_trace img kvs s style pts :
  is_str "path" (type_of kvs) = true ->
  stroke_style (JObj kvs) = Ok style ->
  stroke_points (JObj kvs) = Ok pts ->
  length pts < 2 ->
  draw_object img (JObj kvs) s = (Ok tt, s, []).
Proof.
  intros T S P L. destruct style as [fill width].
  rewrite (draw_object_styled _ _ _ _ _ _ T S P).
  destruct (1 <? length pts) eqn:B; [|reflexivity]. apply Nat.ltb_lt in B. lia.
Qed.
End MoreRasteriser.

Section Soundness.
Context {pil : PIL} {py : Builtins}.

Lemma item_event_more img items items' ev :
  (forall obj, In obj items -> In obj items') ->
  item_event img items ev -> item_event img items' ev.
Proof.
  intros Sub. destruct ev; simpl; auto.
  intros (T & kvs & plan & I & Rest). split; [exact T|].
  exists kvs, plan. split; [now apply Sub|exact Rest].
Qed.

Lemma draw_object_item_events img obj s :
  Forall (item_event img [obj]) (snd (draw_object img obj s)).
Proof.
  destruct obj as [| | | | |kvs]; try (simpl; constructor).
  unfold draw_object. simpl py_get. rewrite bind_lift_ok. fold (type_of kvs).
  destruct (is_str "path" (type_of kvs)) eqn:T; [|simpl; constructor].
  unfold try_except, draw_path, bind, lift.
  destruct (plan_stroke (JObj kvs)) as [plan|e] eqn:P; [|simpl; repeat constructor].
  destruct (1 <? length (plan_points plan)) eqn:L; [|simpl; constructor].
  apply Nat.ltb_lt in L.
  assert (C : item_event img [JObj kvs]
                (EvDrawLine img (plan_points plan) (plan_fill plan) (plan_width plan))).
  { split; [reflexivity|]. exists kvs, plan. simpl. repeat split; auto; lia. }
  unfold imagedraw_line. destruct (images s !! img) as [i|].
  - destruct (draw_line _ _ _ i); simpl;
      repeat first [exact C | apply List.Forall_nil | apply List.Forall_cons | reflexivity].
  - simpl.
    repeat first [exact C | apply List.Forall_nil | apply List.Forall_cons | reflexivity].
Qed.

Lemma loop_item_events img items s :
  Forall (item_event img items) (snd (for_each items (draw_object img) s)).
Proof.
  revert s. induction items as [|obj items IH]; intros s; [constructor|].
  simpl for_each. unfold bind.
  pose proof (draw_object_item_events img obj s) as F1.
  destruct (draw_object img obj s) as [[[[]|e] s1] ev1]; simpl in F1.
  - specialize (IH s1). destruct (for_each items (draw_object img) s1) as [[r2 s2] ev2].
    simpl in *. apply Forall_app. split.
    + eapply Forall_impl; [exact F1|]. intros ev. apply item_event_more.
      intros o [<-|[]]. now left.
    + eapply Forall_impl; [exact IH|]. intros ev. apply item_event_more.
      intros o I. now right.
  - simpl. eapply Forall_impl; [exact F1|]. intros ev. apply item_event_more.
    intros o [<-|[]]. now left.
Qed.

Lemma item_event_loop img items ev : item_event img items ev -> loop_event img ev.
Proof.
  destruct ev; simpl; auto.
  intros (T & kvs & plan & _ & _ & _ & _ & _ & _ & L). auto.
Qed.

(** What a run comes to, for any payload: either it ran to its end on a
    payload with an object list and saved the image as its last act, or it
    saved nothing and the files are as they were. *)
Lemma export_outcome cd bg path s :
  let items := match payload_items (json_data cd) with Ok l => l | Raise _ => [] end in
  exists r s' ev,
    export_canvas_to_file cd bg path s = (r, s', ev)
    /\ ((r = Ok tt
         /\ payload_absent (json_data cd) = Ok false
         /\ exists i ev0,
              files s' = <[path := PngFile i]> (files s)
              /\ images s' !! fresh (dom (images s)) = Some i
              /\ ev = ev0 ++ [EvWriteFile path]
              /\ Forall (item_event (fresh (dom (images s))) items) ev0)
        \/ (files s' = files s
            /\ (r = Ok tt -> payload_absent (json_data cd) = Ok true)
            /\ Forall (item_event (fresh (dom (images s))) items) ev)).
Proof.
  intros items0.
  destruct (payload_absent (json_data cd)) as [[|]|e] eqn:A.
  - exists (Ok tt), s, []. split.
    + unfold export_canvas_to_file. now rewrite A, bind_lift_ok.
    + right. split; [reflexivity|]. split; [reflexivity|]. constructor.
  - destruct (images s !! bg) as [b|] eqn:E.
    + rewrite (export_general _ _ _ _ _ A E). cbv zeta.
      set (img := fresh (dom (images s))).
      set (s0 := {| images := <[img := convert_rgba b]> (images s); files := files s |}).
      subst items0.
      destruct (payload_items (json_data cd)) as [items|e].
      * assert (E0 : images s0 !! img = Some (convert_rgba b)) by apply lookup_insert_eq.
        destruct (loop_spec img items s0 _ E0) as (r1 & ev1 & L1 & _).
        pose proof (loop_item_events img items s0) as F1. rewrite L1 in F1. simpl in F1.
        unfold bind. rewrite L1. destruct r1 as [[]|e].
        -- unfold image_save. simpl. rewrite lookup_insert_eq.
           eexists _, _, _. split; [reflexivity|]. left.
           split; [reflexivity|]. split; [reflexivity|].
           exists (paint (convert_rgba b) ev1), ev1. simpl.
           rewrite lookup_insert_eq. repeat split; auto.
        -- eexists _, _, _. split; [reflexivity|]. right. simpl.
           split; [reflexivity|]. split; [discriminate|exact F1].
      * eexists _, _, _. split; [reflexivity|]. right. simpl.
        split; [reflexivity|]. split; [discriminate|constructor].
    + exists (Raise (LibraryError "no such image")), s, []. split.
      * unfold export_canvas_to_file. rewrite A, bind_lift_ok.
        unfold bind, image_convert_rgba. now rewrite E.
      * right. split; [reflexivity|]. split; [discriminate|constructor].
  - exists (Raise e), s, []. split.
    + unfold export_canvas_to_file. now rewrite A.
    + right. split; [reflexivity|]. split; [discriminate|constructor].
Qed.

Lemma writes_items img items ev : Forall (item_event img items) ev -> writes ev = [].
Proof.
  intros F. apply (writes_loop img). eapply Forall_impl; [exact F|].
  intros e. apply item_event_loop.
Qed.

(** X6. The run draws nothing but the strokes of its payload: every call
    of [draw.line] is made on the working copy and carries out the plan of
    one path object of the object list, with the vertices, the colour and
    the width that object resolves to. *)
Theorem draws_come_from_payload data objs bg path s :
  payload_objects data objs ->
  Forall (fun ev => item_event (fresh (dom (images s))) objs ev \/ ev = EvWriteFile path)
    (snd (export_canvas_to_file {| json_data := data |} bg path s)).
Proof.
  intros O. destruct (payload_objects_items _ _ O) as [A I].
  pose proof (export_outcome {| json_data := data |} bg path s) as X.
  simpl json_data in X. rewrite I in X. cbv zeta in X.
  destruct X as (r & s' & ev & -> & [(_ & _ & i & ev0 & _ & _ & -> & F)|(_ & _ & F)]);
    simpl.
  - apply Forall_app. split.
    + eapply Forall_impl; [exact F|]. intros e. now left.
    + constructor; [now right|constructor].
  - eapply Forall_impl; [exact F|]. intros e. now left.
Qed.

Lemma plan_fill_opaque obj plan :
  plan_stroke obj = Ok plan ->
  exists colour rgb, imagecolor_getrgb colour = Ok rgb /\ plan_fill plan = rgb ++ [255%Z].
Proof.
  unfold plan_stroke, stroke_style.
  destruct (py_get obj "stroke" (JStr "#ff0000")) as [colour|e]; [|discriminate]. simpl.
  destruct (py_get obj "strokeWidth" (JNum 3)) as [declared|e]; [|discriminate]. simpl.
  destruct (py_int declared) as [w|e]; [|discriminate]. simpl.
  destruct (imagecolor_getrgb colour) as [rgb|e] eqn:C; [|discriminate]. simpl.
  destruct (stroke_points obj) as [pts|e]; [|discriminate]. simpl.
  intros [= <-]. now exists colour, rgb.
Qed.

(** X7. Every line is drawn fully opaque: whatever the payload, the fill
    of every call of [draw.line] is a colour [ImageColor.getrgb] resolved,
    followed by the alpha value 255.  (A colour that already has an alpha
    component keeps it and gets a fifth component.) *)
Theorem lines_are_opaque cd bg path s :
  Forall opaque_call (snd (export_canvas_to_file cd bg path s)).
Proof.
  assert (Op : forall img items ev, item_event img items ev -> opaque_call ev).
  { intros img items [] I; simpl in *; auto.
    destruct I as (_ & kvs & plan & _ & _ & P & _ & -> & _).
    exact (plan_fill_opaque _ _ P). }
  destruct (export_outcome cd bg path s)
    as (r & s' & ev & -> & [(_ & _ & i & ev0 & _ & _ & -> & F)|(_ & _ & F)]);
    simpl.
  - apply Forall_app. split; [|repeat constructor].
    eapply Forall_impl; [exact F|]. intros e. apply Op.
  - eapply Forall_impl; [exact F|]. intros e. apply Op.
Qed.

(** X8. A diagram file is written whole or not at all, and no other file
    is touched: a run that ends normally on a payload with an object list
    writes the file at the save path once, as its last act; a run that
    stops on an error, or finds no object list, writes nothing and leaves
    every file as it was. *)
Theorem export_saves_last_or_never cd bg path s :
  let run := export_canvas_to_file cd bg path s in
  (forall p, p <> path -> files (snd (fst run)) !! p = files s !! p)
  /\ (fst (fst run) = Ok tt /\ payload_absent (json_data cd) = Ok false ->
      writes (snd run) = [path]
      /\ (exists ev0, snd run = ev0 ++ [EvWriteFile path])
      /\ exists i, images (snd (fst run)) !! fresh (dom (images s)) = Some i
                   /\ files (snd (fst run)) !! path = Some (PngFile i))
  /\ (fst (fst run) <> Ok tt \/ payload_absent (json_data cd) = Ok true ->
      writes (snd run) = [] /\ files (snd (fst run)) = files s).
Proof.
  intros run. subst run.
  destruct (export_outcome cd bg path s)
    as (r & s' & ev & -> &
        [(-> & A & i & ev0 & Fl & Im & -> & F)|(Fl & R & F)]);
    simpl.
  - split; [intros p N; rewrite Fl; now apply lookup_insert_ne|]. split.
    + intros _. split; [rewrite writes_app, (writes_items _ _ _ F); reflexivity|].
      split; [now exists ev0|]. exists i. split; [exact Im|].
      rewrite Fl. apply lookup_insert_eq.
    + intros [N|T]; [now destruct N|congruence].
  - split; [intros p _; now rewrite Fl|]. split.
    + intros [-> A]. rewrite (R eq_refl) in A. discriminate.
    + intros _. split; [exact (writes_items _ _ _ F)|exact Fl].
Qed.
End Soundness.

Section Repeats.
Context {pil : PIL} {py : Builtins}.

(** The object loop reads the working copy and nothing else of the world:
    started on two copies that hold the same image, it ends alike. *)
Lemma draw_object_content img img' obj (s t : state) i :
  images s !! img = Some i ->
  images t !! img' = Some i ->
  exists r j ev ev',
    draw_object img obj s
    = (r, {| images := <[img := j]> (images s); files := files s |}, ev)
    /\ draw_object img' obj t
       = (r, {| images := <[img' := j]> (images t); files := files t |}, ev').
Proof.
  intros E E'.
  assert (Same : forall (r : result unit) (ev ev' : list event),
            exists r0 j ev0 ev0',
              (r, s, ev) = (r0, {| images := <[img := j]> (images s); files := files s |}, ev0)
              /\ (r, t, ev')
                 = (r0, {| images := <[img' := j]> (images t); files := files t |}, ev0')).
  { intros r ev ev'. exists r, i, ev, ev'. now rewrite !state_same. }
  destruct obj as [| | | | |kvs]; try apply Same.
  rewrite (draw_object_dict _ _ _ _ E), (draw_object_dict _ _ _ _ E').
  destruct (is_str "path" (type_of kvs)); [|apply Same].
  destruct (plan_stroke (JObj kvs)) as [plan|e]; [|apply Same].
  destruct (1 <? length (plan_points plan)); [|apply Same].
  destruct (draw_line _ _ _ i) as [i'|e]; [|apply Same].
  eexists _, i', _, _. split; reflexivity.
Qed.

Lemma loop_content img img' objs (s t : state) i :
  images s !! img = Some i ->
  images t !! img' = Some i ->
  exists r j ev ev',
    for_each objs (draw_object img) s
    = (r, {| images := <[img := j]> (images s); files := files s |}, ev)
    /\ for_each objs (draw_object img') t
       = (r, {| images := <[img' := j]> (images t); files := files t |}, ev').
Proof.
  revert s t i. induction objs as [|obj objs IH]; intros s t i E E'.
  - exists (Ok tt), i, [], []. simpl. unfold ret. now rewrite !state_same.
  - destruct (draw_object_content img img' obj s t i E E') as (r1 & j1 & ev1 & ev1' & D & D').
    simpl for_each. unfold bind. rewrite D, D'.
    destruct r1 as [[]|e]; [|now exists (Raise e), j1, ev1, ev1'].
    destruct (IH {| images := <[img := j1]> (images s); files := files s |}
                {| images := <[img' := j1]> (images t); files := files t |} j1)
      as (r2 & j2 & ev2 & ev2' & L & L'); [apply lookup_insert_eq ..|].
    rewrite L, L'. simpl. exists r2, j2, (ev1 ++ ev2), (ev1' ++ ev2').
    now rewrite !insert_insert_eq.
Qed.

Lemma has_objects_present kvs v :
  assoc "objects" kvs = Some v -> payload_absent (JObj kvs) = Ok false.
Proof.
  intros O. unfold payload_absent. destruct kvs as [|kv kvs]; [discriminate|].
  change (py_truthy (JObj (kv :: kvs))) with true. unfold py_contains. now rewrite O.
Qed.

Lemma export_guarded cd bg path s :
  payload_absent (json_data cd) = Ok true ->
  export_canvas_to_file cd bg path s = (Ok tt, s, []).
Proof. intros A. unfold export_canvas_to_file. now rewrite A, bind_lift_ok. Qed.

(** X9. Saving again gives the same picture: a second run with the same
    payload and background, after a first one that ended normally, ends
    normally too and leaves the files exactly as the first run left them.
    The strokes of the first run are not drawn over a second time. *)
Theorem export_again_same_file cd bg path s :
  let first := export_canvas_to_file cd bg path s in
  fst (fst first) = Ok tt ->
  let second := export_canvas_to_file cd bg path (snd (fst first)) in
  fst (fst second) = Ok tt /\ files (snd (fst second)) = files (snd (fst first)).
Proof.
  cbv zeta. destruct (payload_absent (json_data cd)) as [[|]|e] eqn:A.
  - rewrite (export_guarded _ _ _ _ A). simpl. rewrite (export_guarded _ _ _ _ A). auto.
  - destruct (images s !! bg) as [b|] eqn:E.
    + rewrite (export_general _ _ _ _ _ A E). cbv zeta.
      set (img := fresh (dom (images s))).
      set (s0 := {| images := <[img := convert_rgba b]> (images s); files := files s |}).
      destruct (payload_items (json_data cd)) as [items|e] eqn:I; [|discriminate].
      assert (N : img <> bg).
      { intros Eq. pose proof (fresh_image_new s) as F. fold img in F. congruence. }
      assert (E0 : images s0 !! img = Some (convert_rgba b)) by apply lookup_insert_eq.
      destruct (loop_spec img items s0 _ E0) as (r1 & ev1 & L1 & _).
      destruct r1 as [[]|e]; [|unfold bind; rewrite L1; discriminate].
      set (j := paint (convert_rgba b) ev1) in *.
      set (s1 := {| images := <[img := j]> (images s);
                    files := <[path := PngFile j]> (files s) |}).
      assert (First : bind (for_each items (draw_object img)) (fun _ => image_save img path) s0
                      = (Ok tt, s1, ev1 ++ [EvWriteFile path])).
      { unfold bind. rewrite L1. unfold image_save. simpl.
        rewrite lookup_insert_eq. unfold s1. now rewrite insert_insert_eq. }
      rewrite First. cbv [fst snd]. intros _.
      assert (E1 : images s1 !! bg = Some b).
      { simpl. now rewrite lookup_insert_ne. }
      rewrite (export_general _ _ _ _ _ A E1), I. cbv zeta.
      set (img' := fresh (dom (images s1))).
      set (s0' := {| images := <[img' := convert_rgba b]> (images s1); files := files s1 |}).
      assert (E0' : images s0' !! img' = Some (convert_rgba b)) by apply lookup_insert_eq.
      destruct (loop_content img img' items s0 s0' _ E0 E0')
        as (r & j' & ev & ev' & L & L').
      rewrite L1 in L. injection L as <- Hj _.
      assert (J : j' = j).
      { apply (f_equal (fun m => m !! img)) in Hj. simpl in Hj.
        rewrite insert_insert_eq, !lookup_insert_eq in Hj. congruence. }
      subst j'. unfold bind. rewrite L'. unfold image_save. simpl.
      rewrite lookup_insert_eq. simpl. split; [reflexivity|].
      now rewrite insert_insert_eq.
    + unfold export_canvas_to_file. rewrite A, bind_lift_ok.
      unfold bind, image_convert_rgba. rewrite E. discriminate.
  - unfold export_canvas_to_file. rewrite A. discriminate.
Qed.

(** X10. An object list that is no list stops the run before anything is
    drawn: when the "objects" entry is [None], a boolean or a number, the
    loop header raises TypeError out of [export_canvas_to_file], and no
    image is saved. *)
Theorem objects_not_iterable_aborts kvs v bg path s b :
  assoc "objects" kvs = Some v ->
  py_iter v = Raise TypeError ->
  images s !! bg = Some b ->
  exists s',
    export_canvas_to_file {| json_data := JObj kvs |} bg path s = (Raise TypeError, s', [])
    /\ files s' = files s
    /\ (forall l i, images s !! l = Some i -> images s' !! l = Some i).
Proof.
  intros O V E.
  rewrite (export_general {| json_data := JObj kvs |} _ _ _ _ (has_objects_present _ _ O) E).
  cbv zeta. unfold payload_items. simpl. rewrite O. simpl. rewrite V.
  eexists. split; [reflexivity|]. split; [reflexivity|].
  intros l i L. simpl. rewrite lookup_insert_ne; [exact L|].
  intros <-. now rewrite fresh_image_new in L.
Qed.

(** X11. A fractional stroke width is cut, never rounded up: for a
    declared width [q >= 0] the width used is the whole number [w] with
    [w <= q < w + 1]. *)
Theorem fractional_width_truncated kvs q rgb :
  assoc "strokeWidth" kvs = Some (JNum q) ->
  (0 <= q)%Q ->
  imagecolor_getrgb (match assoc "stroke" kvs with Some c => c | None => JStr "#ff0000" end)
  = Ok rgb ->
  exists w,
    stroke_style (JObj kvs) = Ok (rgb ++ [255%Z], w)
    /\ (inject_Z w <= q)%Q /\ (q < inject_Z (w + 1))%Q.
Proof.
  intros W Pos C. exists (Z.quot (Qnum q) (Zpos (Qden q))). split.
  - unfold stroke_style. simpl py_get. rewrite W. simpl rbind. now rewrite C.
  - destruct q as [n d]. unfold Qle, Qlt in *. simpl in *.
    assert (N : (0 <= n)%Z) by lia.
    rewrite Z.quot_div_nonneg by lia.
    pose proof (Z.mul_div_le n (Zpos d) ltac:(lia)).
    pose proof (Z.mul_succ_div_gt n (Zpos d) ltac:(lia)).
    lia.
Qed.
End Repeats.

(** * Further properties of the delivery and of the session *)

Section MoreDelivery.
Context {pil : PIL} {py : Builtins} {svc : Services}.

Lemma send_session_email_paths x lp rp (s : state) :
  send_session_email x lp rp s
  = send_or_report (mail_of x (attachments_of x s [(lp, "left"); (rp, "right")])) s.
Proof.
  unfold send_session_email. unfold bind at 1.
  rewrite attach_existing_spec. simpl app.
  change {| from_email := _; to_emails := _; subject := _; html_content := _;
            reply_to := _; attachment := _ |}
    with (mail_of x (attachments_of x s [(lp, "left"); (rp, "right")])).
  now destruct (send_or_report _ s) as [[r s2] ev2].
Qed.

(** X12. [send_session_email] of [Equine_Bodywork.py] never raises and
    never changes the world, whatever files exist and whatever the delivery
    service does: it makes one delivery attempt and returns [True] exactly
    when the service accepted the message; on a refusal it shows the error
    and the exception and returns [False]. *)
Theorem send_never_raises x lp rp (s : state) :
  let m := mail_of x (attachments_of x s [(lp, "left"); (rp, "right")]) in
  let run := send_session_email x lp rp s in
  snd (fst run) = s
  /\ sends (snd run) = [m]
  /\ ((fst (fst run) = Ok true /\ snd run = [EvSend m] /\ exists u, sg_send m = Ok u)
      \/ (fst (fst run) = Ok false
          /\ exists e, sg_send m = Raise e
                       /\ snd run = [EvSend m; StError "📋 SendGrid error:"; StException e])).
Proof.
  cbv zeta. rewrite send_session_email_paths, send_or_report_spec.
  destruct (sg_send _) as [u|e]; simpl.
  - split; [reflexivity|]. split; [reflexivity|]. left. eauto.
  - split; [reflexivity|]. split; [reflexivity|]. right. eauto.
Qed.

Lemma send_session_email_dev_paths x lp rp (s : state) :
  send_session_email_dev x lp rp s
  = match files s !! lp, files s !! rp with
    | Some fl, Some fr => send_or_report (mail_dev x fl fr) s
    | _, _ => (Raise FileNotFoundError, s, [])
    end.
Proof.
  unfold send_session_email_dev. unfold bind at 1. unfold encode_file at 1.
  unfold bind at 1. unfold read_file at 1.
  destruct (files s !! lp) as [fl|] eqn:El; [|reflexivity].
  unfold ret at 1. cbv beta iota zeta.
  unfold bind at 1. unfold encode_file at 1. unfold bind at 1. unfold read_file at 1.
  destruct (files s !! rp) as [fr|] eqn:Er; [|reflexivity].
  unfold ret at 1. cbv beta iota zeta.
  unfold bind at 1. simpl attach_all.
  unfold bind at 1. unfold encode_file at 1. unfold bind at 1. unfold read_file at 1.
  rewrite El. unfold ret at 1. cbv beta iota zeta.
  unfold bind at 1. unfold encode_file at 1. unfold bind at 1. unfold read_file at 1.
  rewrite Er. unfold ret at 1. cbv beta iota zeta. unfold ret at 1. cbv beta iota zeta.
  simpl app.
  change {| from_email := _; to_emails := _; subject := _; html_content := _;
            reply_to := _; attachment := _ |} with (mail_dev x fl fr).
  now destruct (send_or_report _ s) as [[r s2] ev2].
Qed.

(** X13. [send_session_email] of [test_sendgrid.py] raises
    FileNotFoundError exactly when one of the two diagram files is missing,
    and then before any delivery attempt: nothing is sent, nothing is shown,
    the world is unchanged.  When both files exist it does not raise and
    makes one attempt, with the two files attached. *)
Theorem dev_send_needs_both_files x lp rp (s : state) :
  let run := send_session_email_dev x lp rp s in
  (fst (fst run) = Raise FileNotFoundError
   <-> files s !! lp = None \/ files s !! rp = None)
  /\ (files s !! lp = None \/ files s !! rp = None -> run = (Raise FileNotFoundError, s, []))
  /\ (forall fl fr, files s !! lp = Some fl -> files s !! rp = Some fr ->
      sends (snd run) = [mail_dev x fl fr]
      /\ length (attachment (mail_dev x fl fr)) = 2
      /\ snd (fst run) = s
      /\ exists b, fst (fst run) = Ok b).
Proof.
  cbv zeta. rewrite send_session_email_dev_paths.
  destruct (files s !! lp) as [fl|]; [destruct (files s !! rp) as [fr|]|].
  - rewrite send_or_report_spec. split; [|split].
    + destruct (sg_send _); simpl; split; try discriminate; intros [N|N]; discriminate.
    + intros [N|N]; discriminate.
    + intros ? ? [= <-] [= <-].
      destruct (sg_send _); simpl; repeat split; eauto.
  - split; [|split]; [split; auto | auto | discriminate].
  - split; [|split]; [split; auto | auto | discriminate].
Qed.

Lemma send_session_email_sends x lp rp (s : state) :
  sends (snd (send_session_email x lp rp s))
  = [mail_of x (attachments_of x s [(lp, "left"); (rp, "right")])].
Proof.
  rewrite send_session_email_paths, send_or_report_spec.
  now destruct (sg_send _).
Qed.

(** X14. What a request of [Equine_Bodywork.py] carries: one attachment
    for each of the two paths at which a file exists, the left one first;
    each is an attached PNG named after the horse and the side, and its
    content is the base64 text of the file found at that path. *)
Theorem request_attachments x lp rp (s : state) m :
  In m (sends (snd (send_session_email x lp rp s))) ->
  length (attachment m)
  = (match files s !! lp with Some _ => 1 | None => 0 end)
    + (match files s !! rp with Some _ => 1 | None => 0 end)
  /\ Forall (fun a =>
               file_type a = "image/png" /\ disposition a = "attachment"
               /\ ((file_name a = horse_name x +:+ "_left.png"
                    /\ exists f, files s !! lp = Some f /\ file_content a = b64encode f)
                   \/ (file_name a = horse_name x +:+ "_right.png"
                       /\ exists f, files s !! rp = Some f /\ file_content a = b64encode f)))
      (attachment m).
Proof.
  rewrite send_session_email_sends. intros [<-|[]].
  unfold mail_of, attachments_of. simpl.
  destruct (files s !! lp) as [fl|] eqn:El; destruct (files s !! rp) as [fr|] eqn:Er; simpl;
    (split; [reflexivity|]);
    repeat first
      [ apply List.Forall_nil
      | apply List.Forall_cons;
        [split; [reflexivity|]; split; [reflexivity|];
         first [left; split; [reflexivity|]; eexists; split; reflexivity
               |right; split; [reflexivity|]; eexists; split; reflexivity]|] ].
Qed.
End MoreDelivery.

Section MoreSession.
Context {pil : PIL} {py : Builtins} {svc : Services}.

Lemma notices_items img items ev :
  Forall (item_event img items) ev -> List.filter is_notice ev = [].
Proof.
  induction 1 as [|ev evs E _ IH]; [reflexivity|].
  simpl. rewrite IH. now destruct ev.
Qed.

(** What one export leaves of the world around it. *)
Lemma export_frame cd bg path (s : state) :
  let run := export_canvas_to_file cd bg path s in
  (forall p, p <> path -> files (snd (fst run)) !! p = files s !! p)
  /\ (forall l i, images s !! l = Some i -> images (snd (fst run)) !! l = Some i)
  /\ (forall p, In p (writes (snd run)) -> p = path)
  /\ List.filter is_notice (snd run) = []
  /\ sends (snd run) = [].
Proof.
  cbv zeta.
  destruct (export_shape cd bg path s) as (r0 & s0 & ev0 & X0 & Im & _ & _ & Ev).
  destruct (export_outcome cd bg path s)
    as (r & s' & ev & X & [(_ & _ & i & ev1 & Fl & _ & -> & F)|(Fl & _ & F)]);
    rewrite X in X0; injection X0 as <- <- <-; rewrite X; simpl.
  - split; [intros p N; rewrite Fl; now apply lookup_insert_ne|]. split.
    + intros l j L. destruct Im as [->|[(k & ->) _]]; [exact L|].
      rewrite lookup_insert_ne; [exact L|]. intros <-. now rewrite fresh_image_new in L.
    + split; [|split].
      * rewrite writes_app, (writes_items _ _ _ F). simpl. intros p [<-|[]]. reflexivity.
      * rewrite List.filter_app, (notices_items _ _ _ F). reflexivity.
      * exact (sends_export _ _ _ Ev).
  - split; [intros p _; now rewrite Fl|]. split.
    + intros l j L. destruct Im as [->|[(k & ->) _]]; [exact L|].
      rewrite lookup_insert_ne; [exact L|]. intros <-. now rewrite fresh_image_new in L.
    + split; [|split].
      * rewrite (writes_items _ _ _ F). intros p [].
      * exact (notices_items _ _ _ F).
      * exact (sends_export _ _ _ Ev).
Qed.

(** What the two exports leave of the world around them. *)
Lemma export_diagrams_frame x cl cr li ri (s : state) :
  let run := export_diagrams x cl cr li ri s in
  (forall p, p <> left_path_of x -> p <> right_path_of x ->
     files (snd (fst run)) !! p = files s !! p)
  /\ (forall l i, images s !! l = Some i -> images (snd (fst run)) !! l = Some i)
  /\ (forall p, In p (writes (snd run)) -> p = left_path_of x \/ p = right_path_of x)
  /\ List.filter is_notice (snd run) = []
  /\ sends (snd run) = [].
Proof.
  cbv zeta. unfold export_diagrams, bind.
  pose proof (export_frame cl li (left_path_of x) s) as (F1 & I1 & W1 & N1 & S1).
  cbv zeta in *.
  destruct (export_canvas_to_file cl li (left_path_of x) s) as [[[[]|e] s1] ev1];
    simpl in *.
  - pose proof (export_frame cr ri (right_path_of x) s1) as (F2 & I2 & W2 & N2 & S2).
    cbv zeta in *.
    destruct (export_canvas_to_file cr ri (right_path_of x) s1) as [[r2 s2] ev2];
      simpl in *.
    split; [intros p Nl Nr; rewrite F2, F1; auto|].
    split; [intros l i L; apply I2, I1, L|].
    split; [|split].
    + intros p. rewrite writes_app, in_app_iff. intros [I|I]; [left; auto|right; auto].
    + now rewrite List.filter_app, N1, N2.
    + now rewrite sends_app, S1, S2.
  - split; [intros p Nl _; auto|]. split; [exact I1|].
    split; [intros p I; left; auto|]. split; assumption.
Qed.

(** What the persisting step leaves of the world around it. *)
Lemma persist_frame x (s : state) :
  let run := persist_session x s in
  images (snd (fst run)) = images s
  /\ (forall p, p <> csv_path -> files (snd (fst run)) !! p = files s !! p)
  /\ ((fst (fst run) = Ok tt /\ snd run = [EvWriteFile csv_path; saved])
      \/ ((exists e, fst (fst run) = Raise e) /\ snd run = [] /\ snd (fst run) = s)).
Proof.
  cbv zeta.
  unfold persist_session, bind, os_path_exists, pd_read_csv, to_csv, emit, ret.
  destruct (files s !! csv_path) as [[i|[|header body]]|] eqn:E; rewrite ?E; simpl;
    (split; [reflexivity|]);
    (split; [intros p N; rewrite ?lookup_insert_ne by congruence; reflexivity|]);
    first [left; split; reflexivity | right; split; [eexists; reflexivity|split; reflexivity]].
Qed.

(** X15. With no payload on either canvas, the request carries the diagram
    files as they lay on disk before the save: the save does not rewrite
    them, so what is attached is what an earlier session of a horse of the
    same name left there, or nothing. *)
Theorem absent_payload_attaches_old_files x cl cr li ri (s : state) s1 ev1 :
  payload_absent (json_data cl) = Ok true ->
  payload_absent (json_data cr) = Ok true ->
  client_email x <> "" ->
  persist_session x s = (Ok tt, s1, ev1) ->
  let run := save_session x cl cr li ri s in
  fst (fst run) = Ok tt
  /\ sends (snd run) = [mail_of x (attachments_of x s (sides_of x))]
  /\ writes (snd run) = [csv_path]
  /\ files (snd (fst run)) !! left_path_of x = files s !! left_path_of x
  /\ files (snd (fst run)) !! right_path_of x = files s !! right_path_of x.
Proof.
  intros Al Ar Em P. cbv zeta.
  destruct (png_path_not_csv x) as [Nl Nr].
  pose proof (persist_frame x s) as (_ & Fr & Ev). cbv zeta in Fr, Ev. rewrite P in Fr, Ev.
  simpl in Fr, Ev. destruct Ev as [[_ ->]|[[e N] _]]; [|discriminate].
  apply String.eqb_neq in Em.
  assert (At : attachments_of x s1 (sides_of x) = attachments_of x s (sides_of x)).
  { unfold attachments_of, sides_of. simpl. now rewrite !Fr by assumption. }
  unfold save_session. rewrite session_block_unfold, P.
  unfold export_diagrams, bind.
  rewrite (export_guarded _ _ _ _ Al), (export_guarded _ _ _ _ Ar), deliver_spec, Em.
  cbv zeta. rewrite At.
  destruct (sg_send _) as [u|e]; simpl; repeat split; auto.
Qed.

(** X16. The record outlives a failed rasterisation: the record is written
    before the diagrams are exported, so when an export raises, the save
    stops with that error after the user was told the session is saved; the
    record is in the store, and no delivery is attempted. *)
Theorem record_kept_when_export_fails x cl cr li ri (s : state) s1 ev1 e s2 ev2 :
  persist_session x s = (Ok tt, s1, ev1) ->
  export_diagrams x cl cr li ri s1 = (Raise e, s2, ev2) ->
  save_session x cl cr li ri s = (Raise e, s2, ev1 ++ ev2)
  /\ save_session_dev x cl cr li ri s = (Raise e, s2, ev1 ++ ev2)
  /\ sends (ev1 ++ ev2) = []
  /\ List.filter is_notice (ev1 ++ ev2) = [saved]
  /\ exists header body,
       files s2 !! csv_path
       = Some (CsvFile (header :: body ++ [realign session_columns header (session_row x)])).
Proof.
  intros P X.
  destruct (persist_ok _ _ _ _ P) as (-> & _ & header & body & St).
  destruct (png_path_not_csv x) as [Nl Nr].
  pose proof (export_diagrams_frame x cl cr li ri s1) as (Fr & _ & _ & No & Se).
  cbv zeta in *. rewrite X in *. simpl in *.
  split; [unfold save_session; now rewrite session_block_unfold, P, X|].
  split; [unfold save_session_dev; now rewrite session_block_unfold, P, X|].
  split; [exact Se|]. split; [now rewrite No|].
  exists header, body. rewrite Fr; auto.
Qed.

(** X17. A save writes the record store and the two diagram files of the
    horse, and nothing else: every other file, and every image that was
    open before the save, is afterwards as it was. *)
Theorem save_touches_three_files x cl cr li ri (s : state) :
  let run := save_session x cl cr li ri s in
  (forall p, p <> csv_path -> p <> left_path_of x -> p <> right_path_of x ->
     files (snd (fst run)) !! p = files s !! p)
  /\ (forall l i, images s !! l = Some i -> images (snd (fst run)) !! l = Some i)
  /\ (forall p, In p (writes (snd run)) ->
        p = csv_path \/ p = left_path_of x \/ p = right_path_of x).
Proof.
  cbv zeta. unfold save_session. rewrite session_block_unfold.
  pose proof (persist_frame x s) as (Pi & Pf & Pe). cbv zeta in *.
  destruct (persist_session x s) as [[r1 s1] ev1]. simpl in *.
  assert (W1 : forall p, In p (writes ev1) -> p = csv_path).
  { destruct Pe as [[_ ->]|[_ [-> _]]]; simpl; intros p []; auto. contradiction. }
  destruct r1 as [[]|e1].
  - pose proof (export_diagrams_frame x cl cr li ri s1) as (Xf & Xi & Xw & _ & _).
    cbv zeta in *.
    destruct (export_diagrams x cl cr li ri s1) as [[r2 s2] ev2]. simpl in *.
    assert (F2 : forall p, p <> csv_path -> p <> left_path_of x -> p <> right_path_of x ->
                 files s2 !! p = files s !! p).
    { intros p N Nl Nr. rewrite Xf, Pf; auto. }
    assert (I2 : forall l i, images s !! l = Some i -> images s2 !! l = Some i).
    { intros l i L. apply Xi. now rewrite Pi. }
    destruct r2 as [[]|e2].
    + rewrite deliver_spec.
      destruct (String.eqb (client_email x) ""); [|cbv zeta; destruct (sg_send _)]; simpl;
        (split; [exact F2|]); (split; [exact I2|]);
        intros p; rewrite !writes_app, !in_app_iff; simpl; intros [I|[I|I]];
        auto; contradiction.
    + simpl. split; [exact F2|]. split; [exact I2|].
      intros p. rewrite writes_app, in_app_iff. intros [I|I]; auto.
  - simpl. split; [intros p N _ _; auto|]. split; [intros l i L; now rewrite Pi|].
    intros p I. auto.
Qed.

(** X18. The notices tell the outcome: on a save that runs to its end the
    user is shown "Session saved!" and then, if a client email was given,
    either "Email sent to client!" when the service accepted the request,
    or the error, the exception and the warning when it refused; nothing
    else is shown, and without a client email nothing more than the
    first. *)
Theorem notices_tell_outcome x cl cr li ri (s : state) :
  let run := save_session x cl cr li ri s in
  fst (fst run) = Ok tt ->
  let m := mail_of x (attachments_of x (snd (fst run)) (sides_of x)) in
  List.filter is_notice (snd run)
  = saved ::
    (if String.eqb (client_email x) "" then []
     else match sg_send m with
          | Ok _ => [StSuccess "📧 Email sent to client!"]
          | Raise e => [StError "📋 SendGrid error:"; StException e;
                        StWarning "⚠️ Email failed to send."]
          end).
Proof.
  cbv zeta. unfold save_session. rewrite session_block_unfold.
  pose proof (persist_frame x s) as (_ & _ & Pe). cbv zeta in Pe.
  destruct (persist_session x s) as [[r1 s1] ev1]. simpl in Pe.
  destruct r1 as [[]|e1]; [|discriminate].
  destruct Pe as [[_ ->]|[[e N] _]]; [|discriminate].
  pose proof (export_diagrams_frame x cl cr li ri s1) as (_ & _ & _ & No & _).
  cbv zeta in No.
  destruct (export_diagrams x cl cr li ri s1) as [[r2 s2] ev2]. simpl in No.
  destruct r2 as [[]|e2]; [|discriminate].
  rewrite deliver_spec.
  destruct (String.eqb (client_email x) "").
  - cbn [fst snd]. intros _. now rewrite !List.filter_app, No.
  - cbv zeta.
    destruct (sg_send (mail_of x (attachments_of x s2 (sides_of x)))) as [u|e] eqn:G;
      cbn [fst snd]; rewrite G; intros _; now rewrite !List.filter_app, No.
Qed.
End MoreSession.

Section Text.

Lemma replace_newlines_app a b :
  replace_newlines (a +:+ b) = replace_newlines a +:+ replace_newlines b.
Proof.
  induction a as [|c a IH]; [reflexivity|].
  simpl. destruct (Ascii.eqb c "010"); simpl; now rewrite IH.
Qed.

(** X19. The notes of the message body hold no line break of their own:
    every newline of the notes becomes the tag [<br>] and every other
    character is kept, so notes without a newline are unchanged, and the
    notes can be converted piece by piece. *)
Theorem notes_break_lines a b :
  has_newline (replace_newlines a) = false
  /\ (has_newline a = false -> replace_newlines a = a)
  /\ replace_newlines (a +:+ b) = replace_newlines a +:+ replace_newlines b.
Proof.
  split; [|split; [|apply replace_newlines_app]].
  - induction a as [|c a IH]; [reflexivity|].
    simpl. destruct (Ascii.eqb c "010") eqn:C; simpl; [exact IH|]. now rewrite C.
  - induction a as [|c a IH]; [reflexivity|].
    simpl. destruct (Ascii.eqb c "010"); simpl; [discriminate|].
    intros N. now rewrite IH.
Qed.

Lemma list_ascii_app a b :
  list_ascii_of_string (a +:+ b) = list_ascii_of_string a ++ list_ascii_of_string b.
Proof. induction a as [|c a IH]; [reflexivity|]. simpl. now rewrite IH. Qed.

Lemma string_app_inv_tail a b t : a +:+ t = b +:+ t -> a = b.
Proof.
  intros E. apply (f_equal list_ascii_of_string) in E.
  rewrite !list_ascii_app in E. apply app_inv_tail in E.
  apply (f_equal string_of_list_ascii) in E.
  now rewrite !string_of_list_ascii_of_string in E.
Qed.

Lemma left_right_clash a b : a +:+ "_left.png" <> b +:+ "_right.png".
Proof.
  intros E. apply (f_equal list_ascii_of_string) in E.
  rewrite !list_ascii_app in E.
  change (list_ascii_of_string "_right.png")
    with (["_"%char] ++ list_ascii_of_string "right.png") in E.
  rewrite app_assoc in E. apply app_inj_2 in E; [|reflexivity].
  destruct E as [_ E]. discriminate.
Qed.
End Text.

Section Paths.
Context {pil : PIL} {py : Builtins} {svc : Services}.

(** X20. The files of a save never run into each other: the left diagram
    of any horse is never the right diagram of a horse, neither is ever the
    record store, and two sessions write the same diagram file exactly when
    their horses have the same name. *)
Theorem diagram_paths_distinct (x y : Session) :
  left_path_of x <> right_path_of y
  /\ left_path_of x <> csv_path
  /\ right_path_of x <> csv_path
  /\ (left_path_of x = left_path_of y <-> horse_name x = horse_name y)
  /\ (right_path_of x = right_path_of y <-> horse_name x = horse_name y).
Proof.
  destruct (png_path_not_csv x) as [Nl Nr].
  split; [|split; [exact Nl|split; [exact Nr|split]]].
  - intros E. injection E as E. now apply left_right_clash in E.
  - split; [|unfold left_path_of; now intros ->].
    intros E. injection E as E. exact (string_app_inv_tail _ _ "_left.png" E).
  - split; [|unfold right_path_of; now intros ->].
    intros E. injection E as E. exact (string_app_inv_tail _ _ "_right.png" E).
Qed.

(** X21. In [test_sendgrid.py] a save with a client email stops on
    FileNotFoundError when a canvas had no payload and no diagram file of
    that horse is on disk: the record is stored and the user is told so,
    then the error leaves the block; no request is sent and no warning is
    shown. *)
Theorem dev_save_stops_without_diagram x cl cr li ri (s : state) s1 ev1 :
  client_email x <> "" ->
  payload_absent (json_data cl) = Ok true ->
  payload_absent (json_data cr) = Ok true ->
  files s !! left_path_of x = None \/ files s !! right_path_of x = None ->
  persist_session x s = (Ok tt, s1, ev1) ->
  save_session_dev x cl cr li ri s
  = (Raise FileNotFoundError, s1, [EvWriteFile csv_path; saved])
  /\ exists header body,
       files s1 !! csv_path
       = Some (CsvFile (header :: body ++ [realign session_columns header (session_row x)])).
Proof.
  intros Em Al Ar Missing P.
  destruct (persist_ok _ _ _ _ P) as (-> & _ & St).
  destruct (png_path_not_csv x) as [Nl Nr].
  pose proof (persist_frame x s) as (_ & Fr & _). cbv zeta in Fr. rewrite P in Fr.
  simpl in Fr. apply String.eqb_neq in Em.
  split; [|exact St].
  unfold save_session_dev. rewrite session_block_unfold, P.
  unfold export_diagrams, bind.
  rewrite (export_guarded _ _ _ _ Al), (export_guarded _ _ _ _ Ar), deliver_dev_spec, Em.
  rewrite !Fr by assumption.
  destruct Missing as [-> | ->]; [reflexivity|].
  now destruct (files s !! left_path_of x).
Qed.
End Paths.

(** * The further properties at work on the reference libraries *)

Lemma other_objects_ignored_witness :
  payload_objects (payload_of [JObj green_kvs; JObj text_kvs; JObj chord_kvs])
    ([JObj green_kvs] ++ JObj text_kvs :: [JObj chord_kvs])
  /\ payload_objects (payload_of [JObj green_kvs; JObj chord_kvs])
       ([JObj green_kvs] ++ [JObj chord_kvs])
  /\ is_str "path" (type_of text_kvs) = false
  /\ @export_canvas_to_file ref_pil ref_py
       {| json_data := payload_of [JObj green_kvs; JObj text_kvs; JObj chord_kvs] |}
       left_img "data/Bo_left.png" startup
     = @export_canvas_to_file ref_pil ref_py
         {| json_data := payload_of [JObj green_kvs; JObj chord_kvs] |}
         left_img "data/Bo_left.png" startup.
Proof.
  assert (O : payload_objects (payload_of [JObj green_kvs; JObj text_kvs; JObj chord_kvs])
                ([JObj green_kvs] ++ JObj text_kvs :: [JObj chord_kvs])).
  { eexists. split; reflexivity. }
  assert (O' : payload_objects (payload_of [JObj green_kvs; JObj chord_kvs])
                 ([JObj green_kvs] ++ [JObj chord_kvs])).
  { eexists. split; reflexivity. }
  split; [exact O|]. split; [exact O'|]. split; [reflexivity|].
  exact (@other_objects_ignored ref_pil ref_py _ _ _ _ _ left_img "data/Bo_left.png" startup
           O O' eq_refl).
Defined.

Lemma non_dict_object_aborts_witness :
  payload_objects (payload_of [JObj green_kvs; pt 7; JObj chord_kvs])
    ([JObj green_kvs] ++ pt 7 :: [JObj chord_kvs])
  /\ is_dict (pt 7) = false
  /\ forallb is_dict [JObj green_kvs] = true
  /\ images startup !! left_img = Some (Opened "images/horse_left.png")
  /\ exists s' ev,
       @export_canvas_to_file ref_pil ref_py
         {| json_data := payload_of [JObj green_kvs; pt 7; JObj chord_kvs] |}
         left_img "data/Bo_left.png" startup = (Raise AttributeError, s', ev)
       /\ files s' = files startup.
Proof.
  assert (O : payload_objects (payload_of [JObj green_kvs; pt 7; JObj chord_kvs])
                ([JObj green_kvs] ++ pt 7 :: [JObj chord_kvs])).
  { eexists. split; reflexivity. }
  split; [exact O|]. do 3 (split; [reflexivity|]).
  destruct (@non_dict_object_aborts ref_pil ref_py _ _ _ _ left_img "data/Bo_left.png"
              startup _ O eq_refl eq_refl eq_refl) as (s' & ev & Run & Fl & _).
  exists s', ev. split; [exact Run|exact Fl].
Defined.

Lemma short_segment_discards_stroke_witness :
  is_str "path" (type_of short_kvs) = true
  /\ @stroke_style ref_pil ref_py (JObj short_kvs) = Ok ([255; 0; 0; 255]%Z, 3%Z)
  /\ collect_points [encode (MoveTo (pt 0) (pt 0)); encode (LineTo (pt 80) (pt 0))] []
     = Ok [(pt 0, pt 0); (pt 80, pt 0)]
  /\ too_short (JStr "Q") [pt 40; pt 90; pt 80] = true
  /\ @draw_object ref_pil ref_py 3%positive (JObj short_kvs) startup
     = (Ok tt, startup, [EvPrint report IndexError]).
Proof.
  do 4 (split; [reflexivity|]).
  exact (@short_segment_discards_stroke ref_pil ref_py 3%positive short_kvs
           [encode (MoveTo (pt 0) (pt 0)); encode (LineTo (pt 80) (pt 0))]
           (JStr "Q") [pt 40; pt 90; pt 80] [] startup _ _
           eq_refl eq_refl eq_refl eq_refl eq_refl).
Defined.

Lemma short_stroke_leaves_no_trace_witness :
  is_str "path" (type_of dot_kvs) = true
  /\ @stroke_style ref_pil ref_py (JObj dot_kvs) = Ok ([255; 0; 0; 255]%Z, 3%Z)
  /\ stroke_points (JObj dot_kvs) = Ok [(pt 7, pt 7)]
  /\ length [(pt 7, pt 7)] < 2
  /\ @draw_object ref_pil ref_py 3%positive (JObj dot_kvs) startup = (Ok tt, startup, []).
Proof.
  do 3 (split; [reflexivity|]). split; [simpl; lia|].
  apply (@short_stroke_leaves_no_trace ref_pil ref_py 3%positive dot_kvs startup
           ([255; 0; 0; 255]%Z, 3%Z) [(pt 7, pt 7)] eq_refl eq_refl eq_refl).
  simpl. lia.
Defined.

Lemma draws_come_from_payload_witness :
  payload_objects (payload_of [JObj green_kvs; JObj bad_colour_kvs])
    [JObj green_kvs; JObj bad_colour_kvs]
  /\ Forall (fun ev =>
               @item_event ref_pil ref_py (fresh (dom (images startup)))
                 [JObj green_kvs; JObj bad_colour_kvs] ev
               \/ ev = EvWriteFile "data/Bo_left.png")
       (snd (@export_canvas_to_file ref_pil ref_py
               {| json_data := payload_of [JObj green_kvs; JObj bad_colour_kvs] |}
               left_img "data/Bo_left.png" startup)).
Proof.
  assert (O : payload_objects (payload_of [JObj green_kvs; JObj bad_colour_kvs])
                [JObj green_kvs; JObj bad_colour_kvs]).
  { eexists. split; reflexivity. }
  split; [exact O|].
  exact (@draws_come_from_payload ref_pil ref_py _ _ left_img "data/Bo_left.png" startup O).
Defined.

Lemma export_again_same_file_witness :
  let cd := {| json_data := payload_of [JObj green_kvs; JObj curve_kvs] |} in
  let first := @export_canvas_to_file ref_pil ref_py cd left_img "data/Bo_left.png" startup in
  let second :=
    @export_canvas_to_file ref_pil ref_py cd left_img "data/Bo_left.png" (snd (fst first)) in
  fst (fst first) = Ok tt
  /\ fst (fst second) = Ok tt
  /\ files (snd (fst second)) = files (snd (fst first)).
Proof.
  intros cd first second.
  assert (R : fst (fst first) = Ok tt) by reflexivity.
  split; [exact R|].
  exact (@export_again_same_file ref_pil ref_py cd left_img "data/Bo_left.png" startup R).
Defined.

Lemma objects_not_iterable_aborts_witness :
  assoc "objects" [("version", JStr "4.4.0"); ("objects", JNull)] = Some JNull
  /\ py_iter JNull = Raise TypeError
  /\ images startup !! left_img = Some (Opened "images/horse_left.png")
  /\ exists s',
       @export_canvas_to_file ref_pil ref_py
         {| json_data := JObj [("version", JStr "4.4.0"); ("objects", JNull)] |}
         left_img "data/Bo_left.png" startup = (Raise TypeError, s', [])
       /\ files s' = files startup.
Proof.
  do 3 (split; [reflexivity|]).
  destruct (@objects_not_iterable_aborts ref_pil ref_py
              [("version", JStr "4.4.0"); ("objects", JNull)] JNull
              left_img "data/Bo_left.png" startup _ eq_refl eq_refl eq_refl)
    as (s' & Run & Fl & _).
  exists s'. split; [exact Run|exact Fl].
Defined.

Lemma fractional_width_truncated_witness :
  assoc "strokeWidth" wide_kvs = Some (JNum (29 # 10))
  /\ (0 <= 29 # 10)%Q
  /\ @imagecolor_getrgb ref_pil (JStr "red") = Ok [255; 0; 0]%Z
  /\ exists w,
       @stroke_style ref_pil ref_py (JObj wide_kvs) = Ok ([255; 0; 0; 255]%Z, w)
       /\ (inject_Z w <= 29 # 10)%Q /\ (29 # 10 < inject_Z (w + 1))%Q.
Proof.
  assert (P : (0 <= 29 # 10)%Q) by (unfold Qle; simpl; lia).
  split; [reflexivity|]. split; [exact P|]. split; [reflexivity|].
  exact (@fractional_width_truncated ref_pil ref_py wide_kvs (29 # 10) [255; 0; 0]%Z
           eq_refl P eq_refl).
Defined.

Lemma request_attachments_witness :
  let svc := ref_services delivery_up in
  let m := @mail_of ref_pil ref_py svc bo
             (@attachments_of ref_pil ref_py svc bo after_earlier_session
                [("data/Bo_left.png", "left"); ("data/none.png", "right")]) in
  In m (sends (snd (@send_session_email ref_pil ref_py svc bo
                      "data/Bo_left.png" "data/none.png" after_earlier_session)))
  /\ length (attachment m) = 1
  /\ map file_name (attachment m) = ["Bo_left.png"].
Proof.
  intros svc m.
  assert (I : In m (sends (snd (@send_session_email ref_pil ref_py svc bo
                                  "data/Bo_left.png" "data/none.png"
                                  after_earlier_session)))).
  { left. reflexivity. }
  split; [exact I|].
  destruct (@request_attachments ref_pil ref_py svc bo "data/Bo_left.png" "data/none.png"
              after_earlier_session m I) as (L & _).
  split; [rewrite L; reflexivity|reflexivity].
Defined.

Lemma absent_payload_attaches_old_files_witness :
  let svc := ref_services delivery_up in
  let none := {| json_data := JNull |} in
  let stored := @persist_session ref_pil ref_py bo after_earlier_session in
  let run := @save_session ref_pil ref_py svc bo none none left_img right_img
               after_earlier_session in
  payload_absent (json_data none) = Ok true
  /\ client_email bo <> ""
  /\ fst (fst stored) = Ok tt
  /\ fst (fst run) = Ok tt
  /\ map (fun m => map file_content (attachment m)) (sends (snd run)) = [["cG5n"; "cG5n"]]
  /\ writes (snd run) = [csv_path]
  /\ files (snd (fst run)) !! "data/Bo_left.png"
     = Some (@PngFile ref_pil (Opened "earlier left")).
Proof.
  intros svc none stored run.
  assert (Em : client_email bo <> "") by discriminate.
  destruct (@absent_payload_attaches_old_files ref_pil ref_py svc bo none none
              left_img right_img after_earlier_session _ _
              eq_refl eq_refl Em (triple_eta stored)) as (R & S & W & Fl & _).
  split; [reflexivity|]. split; [exact Em|]. split; [reflexivity|].
  split; [exact R|]. split; [fold run in S; rewrite S; reflexivity|].
  split; [exact W|]. fold run in Fl.
  exact (eq_trans Fl eq_refl).
Defined.

Lemma record_kept_when_export_fails_witness :
  let svc := ref_services delivery_up in
  let broken := {| json_data := payload_of [JObj green_kvs; JStr "path"] |} in
  let none := {| json_data := JNull |} in
  let stored := @persist_session ref_pil ref_py bo startup in
  let exported :=
    @export_diagrams ref_pil ref_py bo broken none left_img right_img (snd (fst stored)) in
  fst (fst stored) = Ok tt
  /\ fst (fst exported) = Raise AttributeError
  /\ fst (fst (@save_session ref_pil ref_py svc bo broken none left_img right_img startup))
     = Raise AttributeError
  /\ sends (snd stored ++ snd exported) = []
  /\ List.filter is_notice (snd stored ++ snd exported) = [saved].
Proof.
  intros svc broken none stored exported.
  destruct (@record_kept_when_export_fails ref_pil ref_py svc bo broken none
              left_img right_img startup _ _ AttributeError _ _
              (triple_eta stored) (triple_eta exported)) as (Run & _ & S & N & _).
  split; [reflexivity|]. split; [reflexivity|].
  split; [now rewrite Run|]. split; [exact S|exact N].
Defined.

Lemma notices_tell_outcome_witness :
  let svc := ref_services delivery_down in
  let drawn := {| json_data := payload_of [JObj green_kvs] |} in
  let run := @save_session ref_pil ref_py svc bo drawn drawn left_img right_img startup in
  fst (fst run) = Ok tt
  /\ List.filter is_notice (snd run)
     = [saved; StError "📋 SendGrid error:"; StException (LibraryError "HTTP Error 401");
        StWarning "⚠️ Email failed to send."].
Proof.
  intros svc drawn run.
  assert (R : fst (fst run) = Ok tt) by reflexivity.
  split; [exact R|].
  exact (eq_trans
           (@notices_tell_outcome ref_pil ref_py svc bo drawn drawn left_img right_img
              startup R) eq_refl).
Defined.

Lemma dev_save_stops_without_diagram_witness :
  let svc := ref_services delivery_up in
  let none := {| json_data := JNull |} in
  let stored := @persist_session ref_pil ref_py bo startup in
  client_email bo <> ""
  /\ payload_absent (json_data none) = Ok true
  /\ (files startup !! @left_path_of ref_py bo = None
      \/ files startup !! @right_path_of ref_py bo = None)
  /\ fst (fst stored) = Ok tt
  /\ @save_session_dev ref_pil ref_py svc bo none none left_img right_img startup
     = (Raise FileNotFoundError, snd (fst stored), [EvWriteFile csv_path; saved]).
Proof.
  intros svc none stored.
  assert (Em : client_email bo <> "") by discriminate.
  assert (Missing : files startup !! @left_path_of ref_py bo = None
                    \/ files startup !! @right_path_of ref_py bo = None).
  { left. reflexivity. }
  destruct (@dev_save_stops_without_diagram ref_pil ref_py svc bo none none
              left_img right_img startup _ _ Em eq_refl eq_refl Missing
              (triple_eta stored)) as (Run & _).
  split; [exact Em|]. split; [reflexivity|]. split; [exact Missing|].
  split; [reflexivity|exact Run].
Defined.
